(** * Cardiac Health Monitor UI: the view logic of [src/App.tsx]

    A shallow embedding of the single React component [App]: its four
    pieces of state, the event handlers [handleChange], [handleSubmit]
    and [resetForm], and the pure presenters [getChartData],
    [getDiagnosisColor] and [getRecommendationMessage].

    Conventions of the embedding.
    - A JavaScript object used as a string-keyed record ([formData]) is a
      finite map [gmap string string].
    - The object [probabilities], whose key order is observable through
      [Object.keys] and [Object.values], is the list of its own
      properties in the engine's enumeration order.
    - A JavaScript [number] is never computed with by the component, so
      the development is parametric in the type [number].
    - [null] is [None].
    - A handler is the list of effects it performs, in program order;
      [run] replays the state setters of such a list on a view state.
      The asynchronous [handleSubmit] is cut at its single [await].
    - Two libraries the component calls decide part of what it does and
      are not part of [src/]: axios (which replies reject the awaited
      promise) and Chart.js (which colour fills which slice).  Their
      share is kept apart in the modules [Axios] and [ChartJS], whose
      definitions say where they are modelled from. *)

From Stdlib Require Import ZArith QArith String Ascii List.
From stdpp Require Import base option list strings gmap fin_maps.
Import ListNotations.

Local Open Scope string_scope.

(** ** Strings: the one library method the component calls *)

Module JSString.

(** [String.prototype.replace] with a string pattern: the first
    occurrence of [pat] is replaced, a string without it is returned
    unchanged.  (The replacement used by the component contains no
    [$] pattern.) *)
Definition replace (pat rep s : string) : string :=
  match String.index 0 pat s with
  | Some i =>
      String.substring 0 i s +:+ rep +:+
      String.substring (i + String.length pat)
                       (String.length s - (i + String.length pat)) s
  | None => s
  end.

End JSString.

(** ** Data model *)

(** The keys of the record held by [useState] at line 16, in source
    order; they are also the [name] attributes of the eight inputs. *)
Definition field_names : list string :=
  ["age"; "weight"; "height"; "hr"; "spo2"; "temp"; "qt_interval"; "st_segment"].

(** The literal passed to [useState] (lines 16-25). *)
Definition initialFormData : gmap string string :=
  <["age" := ""]> (<["weight" := ""]> (<["height" := ""]> (<["hr" := ""]>
  (<["spo2" := ""]> (<["temp" := ""]> (<["qt_interval" := ""]>
  (<["st_segment" := ""]> ∅))))))).

(** [interface PredictionResult]. *)
Record PredictionResult (number : Type) : Type := mkPredictionResult {
  pr_prediction : string;
  pr_probabilities : list (string * number);
  pr_message : string
}.
Arguments mkPredictionResult {number} _ _ _.
Arguments pr_prediction {number} _.
Arguments pr_probabilities {number} _.
Arguments pr_message {number} _.

(** The four [useState] cells of the component. *)
Record State (number : Type) : Type := mkState {
  formData : gmap string string;
  prediction : option (PredictionResult number);
  loading : bool;
  error : option string
}.
Arguments mkState {number} _ _ _ _.
Arguments formData {number} _.
Arguments prediction {number} _.
Arguments loading {number} _.
Arguments error {number} _.

(** The literal passed to [setFormData] by [resetForm] (lines 60-69). *)
Definition clearedFormData : gmap string string :=
  <["age" := ""]> (<["weight" := ""]> (<["height" := ""]> (<["hr" := ""]>
  (<["spo2" := ""]> (<["temp" := ""]> (<["qt_interval" := ""]>
  (<["st_segment" := ""]> ∅))))))).

(** The state at mount. *)
Definition initialState {number : Type} : State number :=
  mkState initialFormData None false None.

(** What the promise returned by [axios.post] rejects with: no response
    arrived, the response had a status that counts as an error, or
    anything else thrown on the way.  The handler never inspects the
    reason. *)
Inductive RequestError : Type :=
| NetworkError
| BadStatus (code : Z)
| OtherError (what : string).

(** How the awaited promise settles. *)
Inductive Outcome (number : Type) : Type :=
| Resolved (data : PredictionResult number)
| Rejected (err : RequestError).
Arguments Resolved {number} _.
Arguments Rejected {number} _.

(** The body of an HTTP response: JSON of the shape of
    [PredictionResult], or any other text. *)
Inductive Body (number : Type) : Type :=
| Wellformed (result : PredictionResult number)
| Malformed (text : string).
Arguments Wellformed {number} _.
Arguments Malformed {number} _.

(** What comes back for the request of line 42: nothing, or a response
    with its status and body. *)
Inductive Reply (number : Type) : Type :=
| NoReply
| HttpReply (status : Z) (body : Body number).
Arguments NoReply {number}.
Arguments HttpReply {number} _ _.

(** ** The HTTP library's side of a submission

    axios is a dependency of the component and not part of [src/]; line
    42 calls [axios.post(url, data)] without a configuration, so the
    library's defaults decide how the awaited promise settles. *)
Module Axios.

(** Modelled from the library's defaults: the default [validateStatus]
    accepts the statuses from 200 to 299. *)
Definition validateStatus (status : Z) : bool :=
  (200 <=? status)%Z && (status <? 300)%Z.

(** Modelled from the library's defaults: the promise rejects when no
    response arrives and when the status is not accepted.  The body
    plays no part in it. *)
Definition rejection {number : Type} (reply : Reply number) : option RequestError :=
  match reply with
  | NoReply => Some NetworkError
  | HttpReply status _ =>
      if validateStatus status then None else Some (BadStatus status)
  end.

(** Modelled from the library's defaults: a response that is not
    rejected resolves, with the parsed body as [response.data]; a body
    that does not parse is handed over as it is, without an error.
    [seen] stands for what the component then reads from it through the
    type it declares. *)
Definition settle {number : Type} (reply : Reply number)
    (seen : PredictionResult number) : Outcome number :=
  match rejection reply with
  | Some err => Rejected err
  | None =>
      match reply with
      | HttpReply _ (Wellformed result) => Resolved result
      | _ => Resolved seen
      end
  end.

End Axios.

(** What the success branch reads from the browser. *)
Record Browser : Type := mkBrowser {
  innerWidth : Z;
  hasResultsSection : bool
}.

(** ** Effects *)

Inductive Effect (number : Type) : Type :=
| PreventDefault
| SetFormData (updater : gmap string string -> gmap string string)
| SetPrediction (p : option (PredictionResult number))
| SetLoading (b : bool)
| SetError (e : option string)
| Post (url : string) (body : gmap string string)
| ScrollIntoView
| ConsoleError (err : RequestError).
Arguments PreventDefault {number}.
Arguments SetFormData {number} _.
Arguments SetPrediction {number} _.
Arguments SetLoading {number} _.
Arguments SetError {number} _.
Arguments Post {number} _ _.
Arguments ScrollIntoView {number}.
Arguments ConsoleError {number} _.

Section View.

Context {number : Type}.

(** One effect on the view state: a setter writes its cell, everything
    else leaves the state alone. *)
Definition perform (s : State number) (e : Effect number) : State number :=
  match e with
  | SetFormData f => mkState (f (formData s)) (prediction s) (loading s) (error s)
  | SetPrediction p => mkState (formData s) p (loading s) (error s)
  | SetLoading b => mkState (formData s) (prediction s) b (error s)
  | SetError x => mkState (formData s) (prediction s) (loading s) x
  | PreventDefault | Post _ _ | ScrollIntoView | ConsoleError _ => s
  end.

Definition run (es : list (Effect number)) (s : State number) : State number :=
  fold_left perform es s.

(** The requests a list of effects sends, in order. *)
Definition posts (es : list (Effect number)) : list (string * gmap string string) :=
  omap (fun e => match e with Post u b => Some (u, b) | _ => None end) es.

(** *** [handleChange] (lines 31-34) *)
Definition handleChange (name value : string) : list (Effect number) :=
  [SetFormData (fun prev => <[name := value]> prev)].

(** *** [handleSubmit] (lines 36-57) *)
Definition predictUrl : string :=
  "https://web-production-900a9.up.railway.app/predict".

Definition failureMessage : string :=
  "An error occurred during prediction. Please try again.".

(** Up to the [await]: lines 37-42.  [fd] is the [formData] the
    rendered closure holds. *)
Definition handleSubmit_begin (fd : gmap string string) : list (Effect number) :=
  [PreventDefault; SetLoading true; SetError None; Post predictUrl fd].

(** After the [await]: the rest of [try], or [catch], then [finally]. *)
Definition handleSubmit_resume (w : Browser) (o : Outcome number) : list (Effect number) :=
  match o with
  | Resolved data =>
      [SetPrediction (Some data)]
      ++ (if (innerWidth w <? 1024)%Z
          then (if hasResultsSection w then [ScrollIntoView] else [])
          else [])
      ++ [SetLoading false]
  | Rejected err =>
      [SetError (Some failureMessage); ConsoleError err; SetLoading false]
  end.

(** *** [resetForm] (lines 59-72) *)
Definition resetForm : list (Effect number) :=
  [SetFormData (fun _ => clearedFormData); SetPrediction None; SetError None].

End View.

(** ** The result presenters *)

(** The object handed to the doughnut chart. *)
Record Dataset (number : Type) : Type := mkDataset {
  data : list number;
  backgroundColor : list string;
  borderColor : list string;
  borderWidth : Z
}.
Arguments mkDataset {number} _ _ _ _.
Arguments data {number} _.
Arguments backgroundColor {number} _.
Arguments borderColor {number} _.
Arguments borderWidth {number} _.

Record ChartData (number : Type) : Type := mkChartData {
  labels : list string;
  datasets : list (Dataset number)
}.
Arguments mkChartData {number} _ _.
Arguments labels {number} _.
Arguments datasets {number} _.

(** The array literal of lines 80-85. *)
Definition backgroundColors : list string :=
  ["rgba(54, 162, 235, 0.7)";
   "rgba(255, 206, 86, 0.7)";
   "rgba(41, 151, 92, 0.7)";
   "rgba(250, 64, 64, 0.7)"].

(** [getChartData] (lines 74-98); [Object.keys] and [Object.values] walk
    the properties of [probabilities] in the same enumeration order. *)
Definition getChartData {number : Type} (s : State number) : option (ChartData number) :=
  match prediction s with
  | None => None
  | Some p =>
      let labels := map fst (pr_probabilities p) in
      let data := map snd (pr_probabilities p) in
      Some (mkChartData labels
              [mkDataset data
                         backgroundColors
                         (map (fun color => JSString.replace "0.7" "1" color) backgroundColors)
                         1%Z])
  end.

(** [getDiagnosisColor] (lines 115-126); [switch] compares with [===]. *)
Definition getDiagnosisColor (diagnosis : string) : string :=
  if String.eqb diagnosis "Good" then "bg-green-100 text-green-700"
  else if String.eqb diagnosis "Heart Failure" then "bg-red-100 text-red-700"
  else if String.eqb diagnosis "Arrhythmia" then "bg-blue-100 text-blue-700"
  else "bg-yellow-100 text-yellow-700".

Record Recommendation : Type := mkRecommendation {
  message : string;
  color : string
}.

(** [getRecommendationMessage] (lines 128-160). *)
Definition getRecommendationMessage (diagnosis : string) : Recommendation :=
  if String.eqb diagnosis "Good" then
    mkRecommendation "No issues found. Maintain a healthy lifestyle."
                     "bg-green-100 text-green-700"
  else if String.eqb diagnosis "Heart Failure" then
    mkRecommendation "Urgent care needed. See a cardiologist now."
                     "bg-red-100 text-red-700"
  else if String.eqb diagnosis "Coronary Artery Disease" then
    mkRecommendation "Consult a cardiologist. Follow a heart-healthy plan."
                     "bg-orange-100 text-orange-700"
  else if String.eqb diagnosis "Arrhythmia" then
    mkRecommendation "See a cardiologist. Avoid caffeine and monitor symptoms."
                     "bg-blue-100 text-blue-700"
  else
    mkRecommendation "Further evaluation needed. Consult a doctor."
                     "bg-yellow-100 text-yellow-700".

(** The labels with a [case] of their own in [getRecommendationMessage]. *)
Definition known_labels : list string :=
  ["Good"; "Heart Failure"; "Coronary Artery Disease"; "Arrhythmia"].

(** ** The chart library's side of the colours

    [getChartData] hands the whole palette to the chart as the dataset's
    [backgroundColor].  Which entry fills which slice is decided by
    Chart.js, a dependency of the component that is not part of
    [src/]. *)
Module ChartJS.

(** Modelled from the spec: the chart library's reading of a list of
    colours, missing from [src/].  The colours are "assigned
    positionally to slices in that order", and "if more than four
    categories are present, colors repeat from the start of the
    palette". *)
Definition resolveIndexable {A : Type} (value : list A) (index : nat) : option A :=
  value !! (index mod length value).

(** Modelled from the spec: the fill of the slice drawn for data element
    [index] of a dataset, read from its [backgroundColor] as above. *)
Definition arcBackground {number : Type} (d : Dataset number) (index : nat) : option string :=
  resolveIndexable (backgroundColor d) index.

End ChartJS.

(** ** The component as a transition system

    [view] is what the four state cells hold; [pending] lists the
    bodies of the requests sent and not yet settled. *)
Record App (number : Type) : Type := mkApp {
  view : State number;
  pending : list (gmap string string)
}.
Arguments mkApp {number} _ _.
Arguments view {number} _.
Arguments pending {number} _.

Inductive Event (number : Type) : Type :=
| OnChange (name value : string)
| OnSubmit
| OnSettle (w : Browser) (o : Outcome number)
| OnReset.
Arguments OnChange {number} _ _.
Arguments OnSubmit {number}.
Arguments OnSettle {number} _ _.
Arguments OnReset {number}.

Section Machine.

Context {number : Type}.

Definition initialApp : App number := mkApp initialState [].

(** One event.  [OnSubmit] is refused while [loading] holds: the submit
    button carries [disabled={loading}] (line 311).  [OnSettle] needs a
    request in flight. *)
Definition step (a : App number) (ev : Event number) : option (App number) :=
  match ev with
  | OnChange name value =>
      Some (mkApp (run (handleChange name value) (view a)) (pending a))
  | OnSubmit =>
      if loading (view a) then None
      else
        let es := handleSubmit_begin (formData (view a)) in
        Some (mkApp (run es (view a)) (pending a ++ map snd (posts es)))
  | OnSettle w o =>
      match pending a with
      | [] => None
      | _ :: rest => Some (mkApp (run (handleSubmit_resume w o) (view a)) rest)
      end
  | OnReset =>
      Some (mkApp (run resetForm (view a)) (pending a))
  end.

Fixpoint exec (evs : list (Event number)) (a : App number) : option (App number) :=
  match evs with
  | [] => Some a
  | ev :: evs' =>
      match step a ev with
      | Some a' => exec evs' a'
      | None => None
      end
  end.

(** The states the component can be in. *)
Inductive reachable : App number -> Prop :=
| reachable_init : reachable initialApp
| reachable_step a ev a' :
    reachable a -> step a ev = Some a' -> reachable a'.

End Machine.

(** ** Sample data *)

Module Samples.

(** Numbers of the samples are rationals. *)
Definition heartFailure : PredictionResult Q :=
  mkPredictionResult "Heart Failure"
                     [("Heart Failure", 0.8%Q); ("Good", 0.2%Q)]
                     "x".

Definition phone : Browser := mkBrowser 800 true.

(** A submission that succeeds, then one that fails. *)
Definition successThenFailure : list (Event Q) :=
  [OnSubmit; OnSettle phone (Resolved heartFailure);
   OnSubmit; OnSettle phone (Rejected NetworkError)].

(** The state right after the first [OnSubmit] from the mount state, and
    the one its request leaves when it succeeds. *)
Definition firstInFlight : App Q :=
  mkApp (mkState initialFormData None true None) [initialFormData].

Definition firstResult : App Q :=
  mkApp (mkState initialFormData (Some heartFailure) false None) [].

(** A result on display next to the failure message. *)
Definition resultAndError : App Q :=
  mkApp (mkState initialFormData (Some heartFailure) false
                 (Some "An error occurred during prediction. Please try again."))
        [].

(** A gateway's error page served with status 200, and a server error. *)
Definition htmlWithStatus200 : Reply Q :=
  HttpReply 200 (Malformed "<html>Bad Gateway</html>").

Definition serverError : Reply Q :=
  HttpReply 500 (Malformed "Internal Server Error").

(** The outcomes of [successThenFailure]. *)
Definition twoOutcomes : list (Browser * Outcome Q) :=
  [(phone, Resolved heartFailure); (phone, Rejected NetworkError)].

(** The age is typed, then the form is submitted. *)
Definition typeThenSubmit : list (Event Q) :=
  [OnChange "age" "54"; OnSubmit].

(** A result with six classes. *)
Definition sixClasses : PredictionResult Q :=
  mkPredictionResult "Good"
                     [("Good", 0.5%Q); ("Heart Failure", 0.1%Q);
                      ("Coronary Artery Disease", 0.1%Q); ("Arrhythmia", 0.1%Q);
                      ("Bradycardia", 0.1%Q); ("Tachycardia", 0.1%Q)]
                     "".

End Samples.

(** All edits of a list, in order: one [handleChange] per [(name, value)]. *)
Definition handleChanges {number : Type} (edits : list (string * string)) : list (Effect number) :=
  concat (map (fun e => handleChange (fst e) (snd e)) edits).

(** A CSS colour [rgba(r, g, b, 0.7)]: opacity 0.7, neither opaque nor
    invisible. *)
Definition semiTransparent (c : string) : Prop :=
  exists rgb : string, c = "rgba(" +:+ rgb +:+ ", 0.7)".

(** ** What the component renders (lines 162-371)

    The element tree, as far as it depends on the state or decides
    behaviour: the two class strings built from [prediction], the
    attributes [type], [name], [value], [step] and [required] of the
    eight inputs, the submit button, the error banner and the result
    panel.  Static text, icons and the remaining class names are left
    out. *)

(** An [<input>] of the form.  [in_value] is [formData.<name>]; a
    missing key reads [undefined], here [None]. *)
Record InputView : Type := mkInputView {
  in_type : string;
  in_name : string;
  in_value : option string;
  in_step : option string;
  in_required : bool
}.

Definition numberInput (fd : gmap string string) (name : string)
    (stepAttr : option string) : InputView :=
  mkInputView "number" name (fd !! name) stepAttr true.

(** Lines 181-303, in document order. *)
Definition renderInputs (fd : gmap string string) : list InputView :=
  [numberInput fd "age" None;
   numberInput fd "weight" None;
   numberInput fd "height" None;
   numberInput fd "hr" None;
   numberInput fd "spo2" None;
   numberInput fd "temp" (Some "0.1");
   numberInput fd "qt_interval" None;
   numberInput fd "st_segment" (Some "0.1")].

(** The [name] attributes of the inputs that carry [onChange]. *)
Definition inputNames : list string := map in_name (renderInputs ∅).

(** The panel of lines 335-367. *)
Record ResultsView (number : Type) : Type := mkResultsView {
  diagnosisClass : string;
  diagnosisText : string;
  recommendationClass : string;
  recommendationText : string;
  doughnut : option (ChartData number)
}.
Arguments mkResultsView {number} _ _ _ _ _.
Arguments diagnosisClass {number} _.
Arguments diagnosisText {number} _.
Arguments recommendationClass {number} _.
Arguments recommendationText {number} _.
Arguments doughnut {number} _.

Record Rendered (number : Type) : Type := mkRendered {
  containerClass : string;
  formCardClass : string;
  inputs : list InputView;
  submitDisabled : bool;
  submitLabel : string;
  errorBanner : option string;
  results : option (ResultsView number)
}.
Arguments mkRendered {number} _ _ _ _ _ _ _.
Arguments containerClass {number} _.
Arguments formCardClass {number} _.
Arguments inputs {number} _.
Arguments submitDisabled {number} _.
Arguments submitLabel {number} _.
Arguments errorBanner {number} _.
Arguments results {number} _.

(** The [return] of [App].  [error && ...] shows nothing for [null] and
    for the empty string, both falsy; [prediction], an object, is truthy
    whenever it is not [null], and so is the value of [getChartData()]. *)
Definition render {number : Type} (s : State number) : Rendered number :=
  mkRendered
    ("lg:flex lg:gap-4 "
       +:+ (match prediction s with Some _ => "" | None => "justify-center" end))
    ("bg-white rounded-xl shadow-lg overflow-hidden "
       +:+ (match prediction s with
            | Some _ => "lg:w-3/5"
            | None => "lg:w-4/5 xl:w-3/4"
            end)
       +:+ " transition-all duration-500 ease-in-out mx-auto lg:mx-0")
    (renderInputs (formData s))
    (loading s)
    (if loading s then "Processing..." else "Analyze Cardiac Health")
    (match error s with
     | Some e => if String.eqb e "" then None else Some e
     | None => None
     end)
    (match prediction s with
     | Some p =>
         Some (mkResultsView
                 ("text-md font-bold p-2 rounded-md "
                    +:+ getDiagnosisColor (pr_prediction p))
                 (pr_prediction p)
                 ("p-8 rounded-md "
                    +:+ color (getRecommendationMessage (pr_prediction p)))
                 (message (getRecommendationMessage (pr_prediction p)))
                 (getChartData s))
     | None => None
     end).

(** ** Runs of events *)

(** Complete submissions one after the other: each is submitted and
    settles before the next one starts. *)
Definition cycles {number : Type} (os : list (Browser * Outcome number)) :
    list (Event number) :=
  concat (map (fun wo => [OnSubmit; OnSettle (fst wo) (snd wo)]) os).

(** The result on display after the outcomes [os]: that of the last
    success, or the earlier one. *)
Definition lastResult {number : Type} (os : list (Browser * Outcome number))
    (start : option (PredictionResult number)) : option (PredictionResult number) :=
  fold_left (fun acc wo =>
               match snd wo with
               | Resolved d => Some d
               | Rejected _ => acc
               end) os start.

(** The error after the outcomes [os]: decided by the last of them. *)
Definition lastError {number : Type} (os : list (Browser * Outcome number))
    (start : option string) : option string :=
  match last os with
  | None => start
  | Some (_, Resolved _) => None
  | Some (_, Rejected _) => Some failureMessage
  end.

(** The same response, event and component state with the text [m] as
    the [message] of every prediction. *)
Definition withMessage {number : Type} (m : string) (p : PredictionResult number) :
    PredictionResult number :=
  mkPredictionResult (pr_prediction p) (pr_probabilities p) m.

Definition eventWithMessage {number : Type} (m : string) (ev : Event number) :
    Event number :=
  match ev with
  | OnSettle w (Resolved d) => OnSettle w (Resolved (withMessage m d))
  | _ => ev
  end.

Definition appWithMessage {number : Type} (m : string) (a : App number) : App number :=
  mkApp (mkState (formData (view a))
                 (option_map (withMessage m) (prediction (view a)))
                 (loading (view a))
                 (error (view a)))
        (pending a).

(** Edits typed into the form, as events. *)
Definition typing {number : Type} (edits : list (string * string)) : list (Event number) :=
  map (fun e => OnChange (fst e) (snd e)) edits.

(** An event the rendered tree can produce: a change comes from one of
    the eight inputs. *)
Definition fromForm {number : Type} (ev : Event number) : Prop :=
  match ev with
  | OnChange name _ => name ∈ inputNames
  | _ => True
  end.

(** * Properties *)

(** ** Running effects *)

Section RunFacts.

Context {number : Type}.

Lemma run_app (es1 es2 : list (Effect number)) (s : State number) :
  run (es1 ++ es2) s = run es2 (run es1 s).
Proof. unfold run. apply fold_left_app. Qed.

Lemma run_handleChange (name value : string) (s : State number) :
  run (handleChange name value) s =
  mkState (<[name := value]> (formData s)) (prediction s) (loading s) (error s).
Proof. reflexivity. Qed.

Lemma run_resetForm (s : State number) :
  run resetForm s = mkState clearedFormData None (loading s) None.
Proof. reflexivity. Qed.

Lemma run_handleSubmit_begin (fd : gmap string string) (s : State number) :
  run (handleSubmit_begin fd) s = mkState (formData s) (prediction s) true None.
Proof. reflexivity. Qed.

Lemma run_handleSubmit_resume (w : Browser) (o : Outcome number) (s : State number) :
  run (handleSubmit_resume w o) s =
  match o with
  | Resolved d => mkState (formData s) (Some d) false (error s)
  | Rejected _ => mkState (formData s) (prediction s) false (Some failureMessage)
  end.
Proof.
  destruct o as [d | err]; [| reflexivity].
  unfold handleSubmit_resume.
  destruct (innerWidth w <? 1024)%Z, (hasResultsSection w); reflexivity.
Qed.

End RunFacts.

(** ** The form: [handleChange] and [resetForm] *)

Lemma field_names_dom : dom initialFormData = list_to_set field_names.
Proof.
  unfold initialFormData, field_names.
  rewrite !dom_insert_L, dom_empty_L. simpl. set_solver.
Qed.

Lemma cleared_is_initial : clearedFormData = initialFormData.
Proof. reflexivity. Qed.

Lemma initial_fields_empty :
  Forall (fun k => initialFormData !! k = Some "") field_names.
Proof. unfold field_names. repeat constructor. Qed.

Section Form.

Context {number : Type}.

(** C4.  From any state, [resetForm] leaves the form record equal to the
    record of the mount, whose eight fields (and no others) hold the
    empty string, and leaves both [prediction] and [error] null.  Nothing
    about the prior state is consulted; [loading] is not written. *)
Theorem resetForm_clears_all (s : State number) :
  formData (run resetForm s) = initialFormData
  /\ Forall (fun k => formData (run resetForm s) !! k = Some "") field_names
  /\ dom (formData (run resetForm s)) = list_to_set field_names
  /\ prediction (run resetForm s) = None
  /\ error (run resetForm s) = None
  /\ loading (run resetForm s) = loading s.
Proof.
  rewrite run_resetForm; simpl. rewrite cleared_is_initial.
  split; [reflexivity |].
  split; [exact initial_fields_empty |].
  split; [exact field_names_dom |].
  repeat split.
Qed.

Lemma handleChange_frame (name value k : string) (s : State number) :
  k <> name ->
  formData (run (handleChange name value) s) !! k = formData s !! k.
Proof.
  intros Hk. rewrite run_handleChange; simpl.
  apply lookup_insert_ne. congruence.
Qed.

Lemma handleChange_written (name value : string) (s : State number) :
  formData (run (handleChange name value) s) !! name = Some value.
Proof. rewrite run_handleChange; simpl. apply lookup_insert_eq. Qed.

Lemma handleChange_changed (name value k : string) (s : State number) :
  formData (run (handleChange name value) s) !! k <> formData s !! k
  <-> k = name /\ formData s !! name <> Some value.
Proof.
  destruct (decide (k = name)) as [-> | Hne].
  - rewrite handleChange_written. split.
    + intros H. split; [reflexivity | congruence].
    + intros [_ H]. congruence.
  - rewrite handleChange_frame by exact Hne. split.
    + intros H. contradiction.
    + intros [H _]. contradiction.
Qed.

Lemma handleChanges_cons (name value : string) (edits : list (string * string)) :
  @handleChanges number ((name, value) :: edits)
  = (handleChange name value ++ handleChanges edits)%list.
Proof. reflexivity. Qed.

(** A key that no edit of a sequence names keeps its value. *)
Lemma handleChanges_frame (edits : list (string * string)) (k : string) (s : State number) :
  k ∉ map fst edits ->
  formData (run (handleChanges edits) s) !! k = formData s !! k.
Proof.
  revert s. induction edits as [| [name value] edits IH]; intros s Hk.
  - reflexivity.
  - rewrite handleChanges_cons, run_app.
    simpl in Hk. apply not_elem_of_cons in Hk as [Hne Hrest].
    rewrite IH by exact Hrest.
    apply handleChange_frame. exact Hne.
Qed.

(** C5.  After any sequence [earlier] of edits, an edit of one of the
    eight fields stores the new value in that field, and every other key
    of the record reads as before the edit; so does the rest of the view
    state.  The keys whose value differs from before are exactly the
    edited one (none when the value typed is the one already stored).
    Over the whole sequence, a key that no edit names still holds the
    value it had at the start. *)
Theorem handleChange_sets_one_field
    (earlier : list (string * string)) (name value : string) (s : State number) :
  name ∈ field_names ->
  let before := run (handleChanges earlier) s in
  let after := run (handleChange name value) before in
  formData after !! name = Some value
  /\ (forall k, k <> name -> formData after !! k = formData before !! k)
  /\ (forall k, formData after !! k <> formData before !! k
                <-> k = name /\ formData before !! name <> Some value)
  /\ prediction after = prediction before
  /\ loading after = loading before
  /\ error after = error before
  /\ (forall k, k ∉ map fst (earlier ++ [(name, value)])%list ->
                formData after !! k = formData s !! k).
Proof.
  intros _ before after. subst after.
  split; [apply handleChange_written |].
  split; [intros k Hk; apply handleChange_frame; exact Hk |].
  split; [intros k; apply handleChange_changed |].
  rewrite run_handleChange. simpl.
  do 3 (split; [reflexivity |]).
  intros k Hk. rewrite map_app in Hk. simpl in Hk.
  apply not_elem_of_app in Hk as [Hearlier Hlast].
  apply not_elem_of_cons in Hlast as [Hne _].
  rewrite lookup_insert_ne by congruence.
  subst before. apply handleChanges_frame. exact Hearlier.
Qed.

(** C10.  A name outside the eight fields is neither refused nor
    dropped: the record returned holds the value under that name, its
    keys are the old keys and the name, and the eight fields read as
    before.  When the name was not yet a key the record grows by one
    entry; from the mount state it has nine. *)
Theorem handleChange_unknown_name_adds_key
    (name value : string) (s : State number) :
  name ∉ field_names ->
  let after := run (handleChange name value) s in
  formData after !! name = Some value
  /\ Forall (fun k => formData after !! k = formData s !! k) field_names
  /\ dom (formData after) = {[name]} ∪ dom (formData s)
  /\ (formData s !! name = None -> size (formData after) = S (size (formData s)))
  /\ size (formData (run (handleChange name value) (@initialState number))) = 9.
Proof.
  intros Hout after. subst after.
  split; [apply handleChange_written |].
  split.
  { apply Forall_forall. intros k Hk. apply handleChange_frame.
    intros ->. exact (Hout Hk). }
  rewrite !run_handleChange; simpl.
  split; [apply dom_insert_L |].
  split; [intros Hnone; apply map_size_insert_None; exact Hnone |].
  rewrite map_size_insert_None; [reflexivity |].
  apply not_elem_of_dom. rewrite field_names_dom.
  rewrite elem_of_list_to_set. exact Hout.
Qed.

End Form.

Lemma hr_is_a_field : "hr" ∈ field_names.
Proof. unfold field_names. repeat constructor. Qed.

Lemma bmi_is_no_field : "bmi" ∉ field_names.
Proof.
  unfold field_names. intros H.
  repeat (apply elem_of_cons in H; destruct H as [H | H]; [discriminate H |]).
  inversion H.
Qed.

(** Typing the age, then the heart rate, from the mount state. *)
Lemma handleChange_sets_one_field_witness :
  "hr" ∈ field_names
  /\ formData (run (handleChange "hr" "72")
                   (run (handleChanges [("age", "54")]) (@initialState Q))) !! "hr"
     = Some "72"
  /\ formData (run (handleChange "hr" "72")
                   (run (handleChanges [("age", "54")]) (@initialState Q))) !! "age"
     = Some "54".
Proof.
  split; [exact hr_is_a_field |].
  destruct (handleChange_sets_one_field [("age", "54")] "hr" "72"
              (@initialState Q) hr_is_a_field) as (Hw & Hf & _).
  split; [exact Hw |].
  rewrite (Hf "age"); [reflexivity | discriminate].
Defined.

(** An input named [bmi] would add a ninth key. *)
Lemma handleChange_unknown_name_adds_key_witness :
  ("bmi" ∉ field_names)
  /\ formData (run (handleChange "bmi" "23") (@initialState Q)) !! "bmi" = Some "23"
  /\ size (formData (run (handleChange "bmi" "23") (@initialState Q))) = 9.
Proof.
  split; [exact bmi_is_no_field |].
  destruct (handleChange_unknown_name_adds_key "bmi" "23"
              (@initialState Q) bmi_is_no_field) as (Hw & _ & _ & _ & Hn).
  split; [exact Hw | exact Hn].
Defined.

(** ** The presenters *)

Lemma eqb_false_of_neq (a b : string) : a <> b -> String.eqb a b = false.
Proof. intros H. apply String.eqb_neq. exact H. Qed.

Lemma not_known_label (d : string) :
  d ∉ known_labels ->
  d <> "Good" /\ d <> "Heart Failure"
  /\ d <> "Coronary Artery Disease" /\ d <> "Arrhythmia".
Proof.
  unfold known_labels. intros H.
  repeat split; intros ->; apply H; repeat constructor.
Qed.

Lemma unknown_is_not_known : "Unknown" ∉ known_labels.
Proof.
  unfold known_labels. intros H.
  repeat (apply elem_of_cons in H; destruct H as [H | H]; [discriminate H |]).
  inversion H.
Qed.

(** C6.  [getRecommendationMessage] sends each of the four labels with a
    case of its own to its literal message and class string; for
    ["Heart Failure"] that is "Urgent care needed. See a cardiologist
    now." with the red class, the one [getDiagnosisColor] gives that
    label.  Every other label gets "Further evaluation needed. Consult a
    doctor." with the yellow class, the default of [getDiagnosisColor]. *)
Theorem getRecommendationMessage_table :
  getRecommendationMessage "Good"
    = mkRecommendation "No issues found. Maintain a healthy lifestyle."
                       "bg-green-100 text-green-700"
  /\ getRecommendationMessage "Heart Failure"
    = mkRecommendation "Urgent care needed. See a cardiologist now."
                       "bg-red-100 text-red-700"
  /\ color (getRecommendationMessage "Heart Failure") = getDiagnosisColor "Heart Failure"
  /\ getRecommendationMessage "Coronary Artery Disease"
    = mkRecommendation "Consult a cardiologist. Follow a heart-healthy plan."
                       "bg-orange-100 text-orange-700"
  /\ getRecommendationMessage "Arrhythmia"
    = mkRecommendation "See a cardiologist. Avoid caffeine and monitor symptoms."
                       "bg-blue-100 text-blue-700"
  /\ (forall label : string,
        label ∉ known_labels ->
        getRecommendationMessage label
          = mkRecommendation "Further evaluation needed. Consult a doctor."
                             "bg-yellow-100 text-yellow-700"
        /\ color (getRecommendationMessage label) = getDiagnosisColor label).
Proof.
  do 5 (split; [reflexivity |]).
  intros label Hout.
  destruct (not_known_label label Hout) as (Hg & Hh & Hc & Ha).
  unfold getRecommendationMessage, getDiagnosisColor.
  rewrite (eqb_false_of_neq _ _ Hg), (eqb_false_of_neq _ _ Hh),
          (eqb_false_of_neq _ _ Hc), (eqb_false_of_neq _ _ Ha).
  split; reflexivity.
Qed.

Lemma getRecommendationMessage_table_witness :
  ("Unknown" ∉ known_labels)
  /\ message (getRecommendationMessage "Unknown")
     = "Further evaluation needed. Consult a doctor."
  /\ color (getRecommendationMessage "Unknown") = "bg-yellow-100 text-yellow-700".
Proof.
  split; [exact unknown_is_not_known |].
  destruct getRecommendationMessage_table as (_ & _ & _ & _ & _ & Hdefault).
  destruct (Hdefault "Unknown" unknown_is_not_known) as [Hrec _].
  rewrite Hrec. split; reflexivity.
Defined.

(** C9.  The class string of [getDiagnosisColor] and the one paired with
    the message by [getRecommendationMessage] coincide on every label but
    ["Coronary Artery Disease"]: on "Good", "Heart Failure" and
    "Arrhythmia" and on every label without a case.  On "Coronary Artery
    Disease" [getDiagnosisColor] falls to its default, the yellow class
    of the unrecognised labels, while the recommendation carries the
    orange class. *)
Theorem diagnosis_and_recommendation_colors :
  getDiagnosisColor "Good" = color (getRecommendationMessage "Good")
  /\ getDiagnosisColor "Heart Failure" = color (getRecommendationMessage "Heart Failure")
  /\ getDiagnosisColor "Arrhythmia" = color (getRecommendationMessage "Arrhythmia")
  /\ (forall label : string,
        label ∉ known_labels ->
        getDiagnosisColor label = color (getRecommendationMessage label)
        /\ getDiagnosisColor label = getDiagnosisColor "Coronary Artery Disease")
  /\ getDiagnosisColor "Coronary Artery Disease" = "bg-yellow-100 text-yellow-700"
  /\ color (getRecommendationMessage "Coronary Artery Disease")
     = "bg-orange-100 text-orange-700"
  /\ getDiagnosisColor "Coronary Artery Disease"
     <> color (getRecommendationMessage "Coronary Artery Disease").
Proof.
  do 3 (split; [reflexivity |]).
  split.
  - intros label Hout.
    destruct (not_known_label label Hout) as (Hg & Hh & Hc & Ha).
    unfold getRecommendationMessage, getDiagnosisColor.
    rewrite (eqb_false_of_neq _ _ Hg), (eqb_false_of_neq _ _ Hh),
            (eqb_false_of_neq _ _ Hc), (eqb_false_of_neq _ _ Ha).
    split; reflexivity.
  - split; [reflexivity |]. split; [reflexivity |]. discriminate.
Qed.

Lemma diagnosis_and_recommendation_colors_witness :
  ("Unknown" ∉ known_labels)
  /\ getDiagnosisColor "Unknown" = color (getRecommendationMessage "Unknown").
Proof.
  split; [exact unknown_is_not_known |].
  destruct diagnosis_and_recommendation_colors as (_ & _ & _ & Hother & _).
  exact (proj1 (Hother "Unknown" unknown_is_not_known)).
Defined.

(** ** The chart *)

Lemma combine_fst_snd {A B : Type} (l : list (A * B)) :
  combine (map fst l) (map snd l) = l.
Proof.
  induction l as [| [a b] l IH]; simpl; [reflexivity |].
  rewrite IH. reflexivity.
Qed.

Lemma backgroundColors_semiTransparent : Forall semiTransparent backgroundColors.
Proof.
  unfold backgroundColors, semiTransparent.
  repeat constructor.
  - exists "54, 162, 235". reflexivity.
  - exists "255, 206, 86". reflexivity.
  - exists "41, 151, 92". reflexivity.
  - exists "250, 64, 64". reflexivity.
Qed.

Lemma resolveIndexable_palette (i : nat) :
  ChartJS.resolveIndexable backgroundColors i = backgroundColors !! (i mod 4).
Proof. reflexivity. Qed.

Lemma resolveIndexable_palette_cycle (i : nat) :
  ChartJS.resolveIndexable backgroundColors (i + 4)
  = ChartJS.resolveIndexable backgroundColors i.
Proof.
  rewrite !resolveIndexable_palette.
  replace (i + 4) with (i + 1 * 4) by lia.
  rewrite Nat.Div0.mod_add. reflexivity.
Qed.

(** C7.  [getChartData] is null exactly when [prediction] is null.
    Otherwise the chart's labels are the keys of [probabilities] in the
    object's enumeration order, the single dataset's data are the values
    in that same order, and label and value at equal positions come from
    one property.  For the response with probabilities
    [{"Heart Failure": 0.8, "Good": 0.2}] the labels are
    ["Heart Failure"; "Good"] and the values [0.8; 0.2]. *)
Theorem getChartData_labels_and_values :
  (forall (number : Type) (s : State number),
     (getChartData s = None <-> prediction s = None)
     /\ (forall p : PredictionResult number,
           prediction s = Some p ->
           exists (c : ChartData number) (d : Dataset number),
             getChartData s = Some c
             /\ datasets c = [d]
             /\ labels c = map fst (pr_probabilities p)
             /\ data d = map snd (pr_probabilities p)
             /\ combine (labels c) (data d) = pr_probabilities p
             /\ length (labels c) = length (data d)))
  /\ (forall (fd : gmap string string) (lo : bool) (er : option string),
        option_map labels
          (getChartData (mkState fd (Some Samples.heartFailure) lo er))
        = Some ["Heart Failure"; "Good"]
        /\ option_map (fun c => map data (datasets c))
             (getChartData (mkState fd (Some Samples.heartFailure) lo er))
           = Some [[0.8%Q; 0.2%Q]]).
Proof.
  split.
  - intros number s. unfold getChartData. split.
    + destruct (prediction s) as [p |]; split; intros H;
        [discriminate H | discriminate H | reflexivity | reflexivity].
    + intros p Hp. rewrite Hp. eexists. eexists.
      split; [reflexivity |]. simpl.
      split; [reflexivity |].
      split; [reflexivity |].
      split; [reflexivity |].
      split; [apply combine_fst_snd |].
      simpl. rewrite !length_map. reflexivity.
  - intros fd lo er. split; reflexivity.
Qed.

Lemma getChartData_labels_and_values_witness :
  prediction (mkState initialFormData (Some Samples.heartFailure) false None)
    = Some Samples.heartFailure
  /\ exists (c : ChartData Q) (d : Dataset Q),
       getChartData (mkState initialFormData (Some Samples.heartFailure) false None)
         = Some c
       /\ datasets c = [d]
       /\ labels c = ["Heart Failure"; "Good"]
       /\ data d = [0.8%Q; 0.2%Q].
Proof.
  split; [reflexivity |].
  destruct getChartData_labels_and_values as [Hgen _].
  destruct (Hgen Q (mkState initialFormData (Some Samples.heartFailure) false None))
    as [_ Hsome].
  destruct (Hsome Samples.heartFailure eq_refl) as (c & d & Hc & Hd & Hl & Hv & _).
  exists c, d. repeat split; assumption.
Defined.

Lemma lookup_map_fst_snd {A B : Type} (l : list (A * B)) (i : nat) (x : A) (y : B) :
  l !! i = Some (x, y) ->
  map fst l !! i = Some x /\ map snd l !! i = Some y.
Proof.
  revert i. induction l as [| [a b] l IH]; intros i Hi.
  - destruct i; discriminate Hi.
  - destruct i as [| i]; simpl in *.
    + injection Hi as -> ->. split; reflexivity.
    + apply IH. exact Hi.
Qed.

Lemma palette_entry (i : nat) : is_Some (backgroundColors !! (i mod 4)).
Proof.
  apply lookup_lt_is_Some_2.
  change (length backgroundColors) with 4.
  apply Nat.mod_upper_bound. discriminate.
Qed.

(** C8.  Whatever the prediction, the chart's labels and data are the
    classes of the prediction in their order, and its single dataset
    carries as [backgroundColor] the same list of exactly four colours,
    each of opacity 0.7.  With the colours read as the chart library
    reads them, the slice drawn for the [i]-th class of the prediction,
    which carries that class's label and value, is filled with the
    palette's colour at position [i mod 4]: the first four slices get
    the four colours in order, and slice [i + 4] gets the colour of
    slice [i] again. *)
Theorem getChartData_palette_cycles
    {number : Type} (s : State number) (p : PredictionResult number) :
  prediction s = Some p ->
  exists (c : ChartData number) (d : Dataset number),
    getChartData s = Some c
    /\ datasets c = [d]
    /\ labels c = map fst (pr_probabilities p)
    /\ data d = map snd (pr_probabilities p)
    /\ backgroundColor d
       = ["rgba(54, 162, 235, 0.7)"; "rgba(255, 206, 86, 0.7)";
          "rgba(41, 151, 92, 0.7)"; "rgba(250, 64, 64, 0.7)"]
    /\ length (backgroundColor d) = 4
    /\ Forall semiTransparent (backgroundColor d)
    /\ (forall (i : nat) (label : string) (value : number),
          pr_probabilities p !! i = Some (label, value) ->
          labels c !! i = Some label
          /\ data d !! i = Some value
          /\ exists colour : string,
               ChartJS.arcBackground d i = Some colour
               /\ backgroundColor d !! (i mod 4) = Some colour)
    /\ (forall i : nat, i < length (labels c) ->
          ChartJS.arcBackground d i = backgroundColor d !! (i mod 4))
    /\ (forall i : nat, i < 4 ->
          ChartJS.arcBackground d i = backgroundColor d !! i)
    /\ (forall i : nat,
          ChartJS.arcBackground d (i + 4) = ChartJS.arcBackground d i).
Proof.
  intros Hp. unfold getChartData. rewrite Hp.
  eexists. eexists.
  split; [reflexivity |]. simpl.
  split; [reflexivity |].
  split; [reflexivity |].
  split; [reflexivity |].
  split; [reflexivity |].
  split; [reflexivity |].
  split; [exact backgroundColors_semiTransparent |].
  unfold ChartJS.arcBackground; simpl.
  split.
  { intros i label value Hi.
    destruct (lookup_map_fst_snd _ _ _ _ Hi) as [Hl Hv].
    split; [exact Hl |]. split; [exact Hv |].
    destruct (palette_entry i) as [colour Hc].
    exists colour. rewrite resolveIndexable_palette. split; exact Hc. }
  split; [intros i _; apply resolveIndexable_palette |].
  split.
  - intros i Hi. rewrite resolveIndexable_palette.
    rewrite Nat.mod_small by exact Hi. reflexivity.
  - intros i. apply resolveIndexable_palette_cycle.
Qed.

(** With six classes the fifth slice, the one of "Bradycardia", is
    filled like the first. *)
Lemma getChartData_palette_cycles_witness :
  prediction (mkState initialFormData (Some Samples.sixClasses) false None)
    = Some Samples.sixClasses
  /\ pr_probabilities Samples.sixClasses !! 4 = Some ("Bradycardia", 0.1%Q)
  /\ exists (c : ChartData Q) (d : Dataset Q),
       getChartData (mkState initialFormData (Some Samples.sixClasses) false None)
         = Some c
       /\ datasets c = [d]
       /\ labels c !! 4 = Some "Bradycardia"
       /\ ChartJS.arcBackground d 4 = Some "rgba(54, 162, 235, 0.7)"
       /\ ChartJS.arcBackground d 4 = ChartJS.arcBackground d 0.
Proof.
  split; [reflexivity |]. split; [reflexivity |].
  destruct (getChartData_palette_cycles
              (mkState initialFormData (Some Samples.sixClasses) false None)
              Samples.sixClasses eq_refl)
    as (c & d & Hc & Hd & _ & _ & Hbg & _ & _ & Hslice & _ & _ & Hcyc).
  exists c, d.
  split; [exact Hc |]. split; [exact Hd |].
  destruct (Hslice 4 "Bradycardia" 0.1%Q eq_refl) as (Hl & _ & colour & Hfill & Hpal).
  split; [exact Hl |].
  split; [| exact (Hcyc 0)].
  rewrite Hfill, <- Hpal, Hbg. reflexivity.
Defined.

(** ** Submission *)

Section Submission.

Context {number : Type}.

Lemma rejected_statuses (status : Z) :
  (status < 200 \/ 300 <= status)%Z -> Axios.validateStatus status = false.
Proof.
  intros H. unfold Axios.validateStatus.
  destruct (Z.leb_spec 200 status), (Z.ltb_spec status 300); simpl;
    try reflexivity; lia.
Qed.

Lemma settle_rejected (reply : Reply number) (seen : PredictionResult number) :
  reply = NoReply
  \/ (exists status body,
        reply = HttpReply status body /\ (status < 200 \/ 300 <= status)%Z) ->
  exists err, Axios.settle reply seen = Rejected err.
Proof.
  intros [-> | (status & body & -> & Hst)].
  - exists NetworkError. reflexivity.
  - exists (BadStatus status). unfold Axios.settle, Axios.rejection.
    rewrite (rejected_statuses status Hst). reflexivity.
Qed.

(** C1, as the code has it.  When the awaited request rejects, for
    whatever reason, the handler leaves [error] equal to "An error
    occurred during prediction. Please try again.", [loading] false, and
    [prediction] as it was: both for the state the rejection finds
    (whatever happened while the request was in flight) and for a
    submission run from start to end.  The request rejects when no
    response arrives and when the response has a status outside
    200-299, so a submission that meets either ends in that way. *)
Theorem handleSubmit_rejected_sets_error (w : Browser) (s : State number) :
  (forall err : RequestError,
     (error (run (handleSubmit_resume w (Rejected err)) s)
        = Some "An error occurred during prediction. Please try again."
      /\ loading (run (handleSubmit_resume w (Rejected err)) s) = false
      /\ prediction (run (handleSubmit_resume w (Rejected err)) s) = prediction s
      /\ formData (run (handleSubmit_resume w (Rejected err)) s) = formData s)
     /\ (error (run (handleSubmit_begin (formData s)
                     ++ handleSubmit_resume w (Rejected err)) s)
           = Some "An error occurred during prediction. Please try again."
         /\ loading (run (handleSubmit_begin (formData s)
                          ++ handleSubmit_resume w (Rejected err)) s) = false
         /\ prediction (run (handleSubmit_begin (formData s)
                             ++ handleSubmit_resume w (Rejected err)) s)
            = prediction s))
  /\ (forall (reply : Reply number) (seen : PredictionResult number),
        reply = NoReply
        \/ (exists status body,
              reply = HttpReply status body /\ (status < 200 \/ 300 <= status)%Z) ->
        error (run (handleSubmit_begin (formData s)
                    ++ handleSubmit_resume w (Axios.settle reply seen)) s)
          = Some "An error occurred during prediction. Please try again."
        /\ loading (run (handleSubmit_begin (formData s)
                         ++ handleSubmit_resume w (Axios.settle reply seen)) s)
           = false
        /\ prediction (run (handleSubmit_begin (formData s)
                            ++ handleSubmit_resume w (Axios.settle reply seen)) s)
           = prediction s).
Proof.
  assert (Hrej : forall err : RequestError,
             run (handleSubmit_begin (formData s)
                  ++ handleSubmit_resume w (Rejected err)) s
             = mkState (formData s) (prediction s) false (Some failureMessage)).
  { intros err. rewrite run_app, run_handleSubmit_resume, run_handleSubmit_begin.
    reflexivity. }
  split.
  - intros err. rewrite Hrej, run_handleSubmit_resume. simpl. repeat split.
  - intros reply seen Hreply.
    destruct (settle_rejected reply seen Hreply) as [err ->].
    rewrite Hrej. simpl. repeat split.
Qed.

Lemma step_OnChange (a : App number) (name value : string) :
  step a (OnChange name value)
  = Some (mkApp (mkState (<[name := value]> (formData (view a)))
                         (prediction (view a)) (loading (view a)) (error (view a)))
                (pending a)).
Proof. reflexivity. Qed.

Lemma step_OnReset (a : App number) :
  step a OnReset
  = Some (mkApp (mkState clearedFormData None (loading (view a)) None) (pending a)).
Proof. reflexivity. Qed.

Lemma step_OnSubmit (a : App number) :
  step a OnSubmit
  = if loading (view a) then None
    else Some (mkApp (mkState (formData (view a)) (prediction (view a)) true None)
                     (pending a ++ [formData (view a)])).
Proof. reflexivity. Qed.

Lemma step_OnSettle (a : App number) (w : Browser) (o : Outcome number) :
  step a (OnSettle w o)
  = match pending a with
    | [] => None
    | _ :: rest =>
        Some (mkApp
                match o with
                | Resolved d =>
                    mkState (formData (view a)) (Some d) false (error (view a))
                | Rejected _ =>
                    mkState (formData (view a)) (prediction (view a)) false
                            (Some failureMessage)
                end
                rest)
    end.
Proof.
  unfold step. destruct (pending a); [reflexivity |].
  rewrite run_handleSubmit_resume. reflexivity.
Qed.

(** While a request is in flight there is exactly one, [loading] holds
    and [error] is null; otherwise [loading] is false. *)
Lemma reachable_invariant (a : App number) :
  reachable a ->
  length (pending a) <= 1
  /\ (loading (view a) = true <-> pending a <> [])
  /\ (pending a <> [] -> error (view a) = None).
Proof.
  induction 1 as [| a ev a' Hreach (Hlen & Hload & Herr) Hstep].
  - simpl. split; [lia |]. split; [| intros H; contradiction].
    split; [discriminate | intros H; contradiction].
  - destruct ev as [name value | | w o |].
    + rewrite step_OnChange in Hstep. injection Hstep as <-. simpl. auto.
    + rewrite step_OnSubmit in Hstep.
      destruct (loading (view a)) eqn:Hl; [discriminate Hstep |].
      injection Hstep as <-. simpl.
      assert (Hnil : pending a = []).
      { destruct (pending a) as [| r rest]; [reflexivity |].
        assert (Hfalse : false = true) by (apply Hload; discriminate).
        discriminate Hfalse. }
      rewrite Hnil. simpl. split; [lia |].
      split; [split; [discriminate | reflexivity] | reflexivity].
    + rewrite step_OnSettle in Hstep.
      destruct (pending a) as [| r rest] eqn:Hp; [discriminate Hstep |].
      injection Hstep as <-. simpl in *.
      assert (Hrest : rest = []) by (destruct rest; [reflexivity | simpl in Hlen; lia]).
      subst rest.
      split; [simpl; lia |].
      split; [| intros H; contradiction].
      destruct o; simpl; split; try discriminate; intros H; contradiction.
    + rewrite step_OnReset in Hstep. injection Hstep as <-. simpl.
      split; [exact Hlen |]. split; [exact Hload | reflexivity].
Qed.

Lemma exec_reachable (evs : list (Event number)) (a a' : App number) :
  reachable a -> exec evs a = Some a' -> reachable a'.
Proof.
  revert a. induction evs as [| ev evs IH]; intros a Ha Hex; simpl in Hex.
  - injection Hex as <-. exact Ha.
  - destruct (step a ev) as [a1 |] eqn:Hs; [| discriminate Hex].
    apply (IH a1); [| exact Hex].
    exact (reachable_step a ev a1 Ha Hs).
Qed.

(** C3.  The effects of [handleSubmit] before the [await] end with the
    one POST of the run, to the fixed URL and with the form record as it
    stands; the effects before it leave [loading] true and [error] null
    and do not touch the record.  The effects after the [await] send
    nothing and leave [loading] false, on success and on failure.  In
    every state the component can reach, [loading] holds exactly when a
    request is in flight, of which there is at most one, and the request
    in flight carries the record of the moment of submission. *)
Theorem handleSubmit_loading_interval :
  (forall s : State number,
     exists pre : list (Effect number),
       handleSubmit_begin (formData s) = (pre ++ [Post predictUrl (formData s)])%list
       /\ posts pre = []
       /\ loading (run pre s) = true
       /\ error (run pre s) = None
       /\ formData (run pre s) = formData s)
  /\ (forall (w : Browser) (o : Outcome number) (s : State number),
        posts (handleSubmit_resume w o) = []
        /\ loading (run (handleSubmit_resume w o) s) = false)
  /\ (forall a : App number,
        reachable a ->
        (loading (view a) = true <-> pending a <> [])
        /\ length (pending a) <= 1
        /\ (forall a' : App number,
              step a OnSubmit = Some a' ->
              loading (view a') = true
              /\ pending a' = [formData (view a)])
        /\ (forall (w : Browser) (o : Outcome number) (a' : App number),
              step a (OnSettle w o) = Some a' ->
              loading (view a') = false /\ pending a' = [])).
Proof.
  split.
  { intros s. exists [PreventDefault; SetLoading true; SetError None].
    repeat split. }
  split.
  { intros w o s. split.
    - destruct o as [d | err]; [| reflexivity].
      unfold handleSubmit_resume.
      destruct (innerWidth w <? 1024)%Z, (hasResultsSection w); reflexivity.
    - rewrite run_handleSubmit_resume. destruct o; reflexivity. }
  intros a Ha.
  destruct (reachable_invariant a Ha) as (Hlen & Hload & _).
  split; [exact Hload |]. split; [exact Hlen |]. split.
  - intros a' Hstep. rewrite step_OnSubmit in Hstep.
    destruct (loading (view a)) eqn:Hl; [discriminate Hstep |].
    injection Hstep as <-. simpl.
    assert (Hnil : pending a = []).
    { destruct (pending a) as [| r rest]; [reflexivity |].
      assert (Hfalse : false = true) by (apply Hload; discriminate).
      discriminate Hfalse. }
    rewrite Hnil. split; reflexivity.
  - intros w o a' Hstep. rewrite step_OnSettle in Hstep.
    destruct (pending a) as [| r rest] eqn:Hp; [discriminate Hstep |].
    injection Hstep as <-. simpl. split.
    + destruct o; reflexivity.
    + destruct rest; [reflexivity | simpl in Hlen; lia].
Qed.

(** C2, as the code has it.  In a reachable state, starting a submission
    nulls [error] and keeps [prediction].  The request that then
    completes leaves, on success, the new result in [prediction] and
    [error] null; on failure, the fixed message in [error] and
    [prediction] as it was, so that both are present exactly when a
    result was stored before. *)
Theorem submit_clears_error_only (a : App number) :
  reachable a ->
  (forall a' : App number,
     step a OnSubmit = Some a' ->
     error (view a') = None /\ prediction (view a') = prediction (view a))
  /\ (forall (w : Browser) (d : PredictionResult number) (a' : App number),
        step a (OnSettle w (Resolved d)) = Some a' ->
        prediction (view a') = Some d /\ error (view a') = None)
  /\ (forall (w : Browser) (err : RequestError) (a' : App number),
        step a (OnSettle w (Rejected err)) = Some a' ->
        error (view a') = Some failureMessage
        /\ prediction (view a') = prediction (view a)
        /\ (is_Some (prediction (view a')) /\ is_Some (error (view a'))
            <-> is_Some (prediction (view a)))).
Proof.
  intros Ha.
  destruct (reachable_invariant a Ha) as (_ & _ & Herr).
  split.
  { intros a' Hstep. rewrite step_OnSubmit in Hstep.
    destruct (loading (view a)); [discriminate Hstep |].
    injection Hstep as <-. split; reflexivity. }
  split.
  - intros w d a' Hstep. rewrite step_OnSettle in Hstep.
    destruct (pending a) as [| r rest] eqn:Hp; [discriminate Hstep |].
    injection Hstep as <-. simpl.
    split; [reflexivity |]. apply Herr. discriminate.
  - intros w err a' Hstep. rewrite step_OnSettle in Hstep.
    destruct (pending a) as [| r rest] eqn:Hp; [discriminate Hstep |].
    injection Hstep as <-. simpl.
    split; [reflexivity |]. split; [reflexivity |].
    split; [intros [H _]; exact H | intros H; split; [exact H | eexists; reflexivity]].
Qed.

End Submission.

(** ** The submission cycle on the samples *)

Lemma firstInFlight_reachable : reachable Samples.firstInFlight.
Proof.
  apply (reachable_step initialApp OnSubmit); [apply reachable_init | reflexivity].
Qed.

(** The first submission from the mount state. *)
Lemma handleSubmit_loading_interval_witness :
  reachable (@initialApp Q)
  /\ step (@initialApp Q) OnSubmit = Some Samples.firstInFlight
  /\ loading (view Samples.firstInFlight) = true
  /\ pending Samples.firstInFlight = [formData (view (@initialApp Q))].
Proof.
  split; [apply reachable_init |].
  split; [reflexivity |].
  destruct (@handleSubmit_loading_interval Q) as (_ & _ & Hreach).
  destruct (Hreach initialApp (reachable_init)) as (_ & _ & Hsubmit & _).
  exact (Hsubmit Samples.firstInFlight eq_refl).
Defined.

(** The first request succeeds: the result is stored and no error shown. *)
Lemma submit_clears_error_only_witness :
  reachable Samples.firstInFlight
  /\ step Samples.firstInFlight (OnSettle Samples.phone (Resolved Samples.heartFailure))
     = Some Samples.firstResult
  /\ prediction (view Samples.firstResult) = Some Samples.heartFailure
  /\ error (view Samples.firstResult) = None.
Proof.
  split; [exact firstInFlight_reachable |].
  split; [reflexivity |].
  destruct (submit_clears_error_only Samples.firstInFlight firstInFlight_reachable)
    as (_ & Hok & _).
  exact (Hok Samples.phone Samples.heartFailure Samples.firstResult eq_refl).
Defined.

(** C2 as stated fails.  A submission that succeeds followed by one that
    fails ends, with no request in flight, in a state that shows both the
    first result and the failure message; and the submission started from
    that state nulls [error] but still holds the result. *)
Lemma failure_after_success_keeps_both :
  exec Samples.successThenFailure initialApp = Some Samples.resultAndError
  /\ reachable Samples.resultAndError
  /\ pending Samples.resultAndError = []
  /\ prediction (view Samples.resultAndError) = Some Samples.heartFailure
  /\ error (view Samples.resultAndError)
     = Some "An error occurred during prediction. Please try again."
  /\ step Samples.resultAndError OnSubmit
     = Some (mkApp (mkState initialFormData (Some Samples.heartFailure) true None)
                   [initialFormData]).
Proof.
  split; [reflexivity |].
  split.
  { apply (exec_reachable Samples.successThenFailure initialApp);
      [apply reachable_init | reflexivity]. }
  repeat split.
Qed.

(** * Further properties of the handlers *)

Section Handlers.

Context {number : Type}.

(** X1.  A successful response replaces whatever result was stored: after the
    [await], [prediction] is the response data whatever it was before
    and whatever the viewport, [loading] is false, and neither [error]
    nor the form is written.  A submission run from start to end on a
    success therefore ends with the new result and no error. *)
Theorem handleSubmit_success_replaces_result
    (w : Browser) (d : PredictionResult number) (s : State number) :
  prediction (run (handleSubmit_resume w (Resolved d)) s) = Some d
  /\ loading (run (handleSubmit_resume w (Resolved d)) s) = false
  /\ error (run (handleSubmit_resume w (Resolved d)) s) = error s
  /\ formData (run (handleSubmit_resume w (Resolved d)) s) = formData s
  /\ run (handleSubmit_begin (formData s) ++ handleSubmit_resume w (Resolved d)) s
     = mkState (formData s) (Some d) false None.
Proof.
  rewrite run_app, !run_handleSubmit_resume, run_handleSubmit_begin.
  simpl. repeat split.
Qed.

(** X2.  [scrollIntoView] is called exactly when the request succeeded, the
    window is narrower than 1024 pixels and the element
    [results-section] is in the document; the part of the handler before
    the [await] never scrolls. *)
Theorem handleSubmit_scrolls_iff (w : Browser) (o : Outcome number) :
  (In ScrollIntoView (handleSubmit_resume w o)
   <-> (exists d, o = Resolved d)
       /\ (innerWidth w < 1024)%Z
       /\ hasResultsSection w = true)
  /\ (forall fd, ~ In ScrollIntoView (@handleSubmit_begin number fd)).
Proof.
  split.
  - unfold handleSubmit_resume. destruct o as [d | err].
    + destruct (Z.ltb_spec (innerWidth w) 1024) as [Hlt | Hge];
        destruct (hasResultsSection w) eqn:Hel; simpl; split.
      * intros _. split; [exists d; reflexivity |]. split; [exact Hlt | reflexivity].
      * intros _. right. left. reflexivity.
      * intros [H | [H | []]]; discriminate H.
      * intros (_ & _ & H). discriminate H.
      * intros [H | [H | []]]; discriminate H.
      * intros (_ & H & _). lia.
      * intros [H | [H | []]]; discriminate H.
      * intros (_ & H & _). lia.
    + simpl. split.
      * intros [H | [H | [H | []]]]; discriminate H.
      * intros ([d Hd] & _). discriminate Hd.
  - intros fd [H | [H | [H | [H | []]]]]; discriminate H.
Qed.

(** X3.  A whole run of [handleSubmit], whatever the outcome, sends one
    request, to the fixed URL and with the form record it was started
    with; it never calls [setFormData], so the form reads afterwards as
    before; and it logs to the console exactly when the request was
    rejected, and then the reason itself. *)
Theorem handleSubmit_one_request_form_kept
    (w : Browser) (o : Outcome number) (s : State number) :
  posts (handleSubmit_begin (formData s) ++ handleSubmit_resume w o)
    = [("https://web-production-900a9.up.railway.app/predict", formData s)]
  /\ (forall f, ~ In (SetFormData f)
                    (handleSubmit_begin (formData s) ++ handleSubmit_resume w o))
  /\ formData (run (handleSubmit_begin (formData s) ++ handleSubmit_resume w o) s)
     = formData s
  /\ (forall err, In (ConsoleError err)
                     (handleSubmit_begin (formData s) ++ handleSubmit_resume w o)
                  <-> o = Rejected err).
Proof.
  split.
  { unfold handleSubmit_resume. destruct o as [d | err]; [| reflexivity].
    destruct (innerWidth w <? 1024)%Z, (hasResultsSection w); reflexivity. }
  split.
  { intros f. unfold handleSubmit_resume. destruct o as [d | err].
    - destruct (innerWidth w <? 1024)%Z, (hasResultsSection w); simpl;
        intros H; repeat (destruct H as [H | H]; [discriminate H |]); exact H.
    - simpl. intros H; repeat (destruct H as [H | H]; [discriminate H |]); exact H. }
  split.
  { rewrite run_app, run_handleSubmit_resume, run_handleSubmit_begin.
    destruct o; reflexivity. }
  intros err. unfold handleSubmit_resume. destruct o as [d | err'].
  - split.
    + destruct (innerWidth w <? 1024)%Z, (hasResultsSection w); simpl;
        intros H; repeat (destruct H as [H | H]; [discriminate H |]); destruct H.
    + intros H. discriminate H.
  - simpl. split.
    + intros H. repeat (destruct H as [H | H]; try discriminate H).
      * injection H as ->. reflexivity.
      * destruct H.
    + intros H. injection H as ->. do 5 right. left. reflexivity.
Qed.

(** X4.  Edits compose like writes to a record: a second edit of the same
    field supersedes the first, edits of different fields can be swapped,
    and typing the value a field already holds changes nothing. *)
Theorem handleChange_composition (s : State number) :
  (forall name v1 v2,
     run (handleChange name v1 ++ handleChange name v2) s
     = run (handleChange name v2) s)
  /\ (forall n1 n2 v1 v2,
        n1 <> n2 ->
        run (handleChange n1 v1 ++ handleChange n2 v2) s
        = run (handleChange n2 v2 ++ handleChange n1 v1) s)
  /\ (forall name v,
        formData s !! name = Some v ->
        run (handleChange name v) s = s).
Proof.
  split; [| split].
  - intros name v1 v2. rewrite run_app, !run_handleChange. simpl.
    rewrite insert_insert_eq. reflexivity.
  - intros n1 n2 v1 v2 Hne. rewrite !run_app, !run_handleChange. simpl.
    rewrite insert_insert_ne by congruence. reflexivity.
  - intros name v Hv. rewrite run_handleChange.
    rewrite insert_id by exact Hv. destruct s; reflexivity.
Qed.

End Handlers.

Lemma handleChange_composition_witness :
  "age" <> "hr"
  /\ run (handleChange "age" "54" ++ handleChange "hr" "72") (@initialState Q)
     = run (handleChange "hr" "72" ++ handleChange "age" "54") (@initialState Q)
  /\ formData (@initialState Q) !! "age" = Some ""
  /\ run (handleChange "age" "") (@initialState Q) = @initialState Q.
Proof.
  destruct (handleChange_composition (@initialState Q)) as (_ & Hswap & Hsame).
  split; [discriminate |].
  split; [apply Hswap; discriminate |].
  split; [reflexivity |].
  apply Hsame. reflexivity.
Defined.

(** The border colours, through [replace]. *)
Lemma borderColors_opaque :
  Forall2 (fun bg bd => exists rgb : string,
             bg = "rgba(" +:+ rgb +:+ ", 0.7)" /\ bd = "rgba(" +:+ rgb +:+ ", 1)")
          backgroundColors
          (map (fun color => JSString.replace "0.7" "1" color) backgroundColors).
Proof.
  unfold backgroundColors. simpl. repeat constructor.
  - exists "54, 162, 235". split; reflexivity.
  - exists "255, 206, 86". split; reflexivity.
  - exists "41, 151, 92". split; reflexivity.
  - exists "250, 64, 64". split; reflexivity.
Qed.

(** X5.  Whatever the prediction, the chart has one dataset, drawn with a
    border of width 1; its border colours are, position by position, the
    fill colours made opaque: the same red, green and blue with opacity 1
    in place of 0.7. *)
Theorem getChartData_borders_opaque
    {number : Type} (s : State number) (p : PredictionResult number) :
  prediction s = Some p ->
  exists (c : ChartData number) (d : Dataset number),
    getChartData s = Some c
    /\ datasets c = [d]
    /\ borderWidth d = 1%Z
    /\ length (borderColor d) = length (backgroundColor d)
    /\ Forall2 (fun bg bd => exists rgb : string,
                  bg = "rgba(" +:+ rgb +:+ ", 0.7)"
                  /\ bd = "rgba(" +:+ rgb +:+ ", 1)")
               (backgroundColor d) (borderColor d).
Proof.
  intros Hp. unfold getChartData. rewrite Hp.
  eexists. eexists.
  split; [reflexivity |]. simpl.
  split; [reflexivity |].
  split; [reflexivity |].
  split; [reflexivity |].
  exact borderColors_opaque.
Qed.

Lemma getChartData_borders_opaque_witness :
  prediction (mkState initialFormData (Some Samples.heartFailure) false None)
    = Some Samples.heartFailure
  /\ exists (c : ChartData Q) (d : Dataset Q),
       getChartData (mkState initialFormData (Some Samples.heartFailure) false None)
         = Some c
       /\ datasets c = [d]
       /\ borderWidth d = 1%Z.
Proof.
  split; [reflexivity |].
  destruct (getChartData_borders_opaque
              (mkState initialFormData (Some Samples.heartFailure) false None)
              Samples.heartFailure eq_refl)
    as (c & d & Hc & Hd & Hw & _).
  exists c, d. repeat split; assumption.
Defined.

(** * Further properties of the component as a whole *)

Section Runs.

Context {number : Type}.

Lemma exec_app (evs1 evs2 : list (Event number)) (a : App number) :
  exec (evs1 ++ evs2) a
  = match exec evs1 a with Some a1 => exec evs2 a1 | None => None end.
Proof.
  revert a. induction evs1 as [| ev evs1 IH]; intros a; simpl; [reflexivity |].
  destruct (step a ev) as [a1 |]; [apply IH | reflexivity].
Qed.

Lemma exec_typing (edits : list (string * string)) (a : App number) :
  exec (typing edits) a
  = Some (mkApp (run (handleChanges edits) (view a)) (pending a)).
Proof.
  revert a. induction edits as [| [name value] edits IH]; intros a.
  - destruct a; reflexivity.
  - change (typing ((name, value) :: edits))
      with (@OnChange number name value :: typing edits).
    rewrite handleChanges_cons, run_app.
    cbn [exec]. rewrite step_OnChange, IH. reflexivity.
Qed.

(** The only text [error] ever holds is the fixed message. *)
Lemma reachable_error_fixed (a : App number) :
  reachable a ->
  error (view a) = None \/ error (view a) = Some failureMessage.
Proof.
  induction 1 as [| a ev a' Hreach IH Hstep].
  - left. reflexivity.
  - destruct ev as [name value | | w o |].
    + rewrite step_OnChange in Hstep. injection Hstep as <-. exact IH.
    + rewrite step_OnSubmit in Hstep.
      destruct (loading (view a)); [discriminate Hstep |].
      injection Hstep as <-. left. reflexivity.
    + rewrite step_OnSettle in Hstep.
      destruct (pending a); [discriminate Hstep |].
      injection Hstep as <-. destruct o; simpl; [exact IH | right; reflexivity].
    + rewrite step_OnReset in Hstep. injection Hstep as <-. left. reflexivity.
Qed.

(** Idle: no request in flight. *)
Lemma idle_not_loading (a : App number) :
  reachable a -> pending a = [] -> loading (view a) = false.
Proof.
  intros Ha Hp. destruct (reachable_invariant a Ha) as (_ & Hload & _).
  destruct (loading (view a)); [| reflexivity].
  exfalso. apply (proj1 Hload); [reflexivity | exact Hp].
Qed.

Lemma loading_one_pending (a : App number) :
  reachable a -> loading (view a) = true -> exists body, pending a = [body].
Proof.
  intros Ha Hl. destruct (reachable_invariant a Ha) as (Hlen & Hload & _).
  destruct (pending a) as [| body rest] eqn:Hp.
  - exfalso. apply (proj1 Hload Hl). reflexivity.
  - exists body. destruct rest; [reflexivity | simpl in Hlen; lia].
Qed.

Lemma last_cons_nonempty {A : Type} (x y : A) (l : list A) :
  last (x :: y :: l) = last (y :: l).
Proof. reflexivity. Qed.

Lemma cycles_cons (w : Browser) (o : Outcome number)
    (os : list (Browser * Outcome number)) :
  cycles ((w, o) :: os) = OnSubmit :: OnSettle w o :: cycles os.
Proof. reflexivity. Qed.

Lemma lastError_cons (w : Browser) (o : Outcome number)
    (os : list (Browser * Outcome number)) (start : option string) :
  lastError ((w, o) :: os) start
  = lastError os (match o with
                  | Resolved _ => None
                  | Rejected _ => Some failureMessage
                  end).
Proof.
  unfold lastError. destruct os as [| [w' o'] os]; [reflexivity |].
  rewrite last_cons_nonempty.
  destruct (last ((w', o') :: os)) as [[w1 o1] |] eqn:Hl; [reflexivity |].
  apply last_None in Hl. discriminate Hl.
Qed.

(** X6.  Submissions made one after the other, each settled before the next
    is started, from a state with nothing in flight: every one is
    accepted, and at the end nothing is in flight, [loading] is false,
    the form is as it was, [prediction] is the data of the last success
    (the earlier result if none succeeded) and [error] is set exactly
    when the last outcome was a failure. *)
Theorem submissions_in_sequence
    (os : list (Browser * Outcome number)) (a : App number) :
  loading (view a) = false ->
  pending a = [] ->
  exec (cycles os) a
  = Some (mkApp (mkState (formData (view a))
                         (lastResult os (prediction (view a)))
                         false
                         (lastError os (error (view a))))
                []).
Proof.
  revert a. induction os as [| [w o] os IH]; intros a Hl Hp.
  - destruct a as [[fd pr lo er] pe]. simpl in *. subst. reflexivity.
  - rewrite cycles_cons. cbn [exec]. rewrite step_OnSubmit, Hl, Hp.
    cbn [app]. rewrite step_OnSettle. cbn [pending view].
    rewrite lastError_cons.
    destruct o as [d | err]; (rewrite IH by reflexivity); reflexivity.
Qed.

(** X7.  A result on display was returned by the service, and an error on
    display was caused by a rejected request: after any run of events
    from the mount state, [prediction] is the data of some success among
    them and [error] is set only if there was a failure among them. *)
Theorem prediction_comes_from_a_response
    (evs : list (Event number)) (a : App number) :
  exec evs initialApp = Some a ->
  (forall d, prediction (view a) = Some d ->
             exists w, In (OnSettle w (Resolved d)) evs)
  /\ (is_Some (error (view a)) ->
      exists w err, In (OnSettle w (Rejected err)) evs).
Proof.
  assert (Hgen : forall (evs : list (Event number)) (a0 a : App number),
             exec evs a0 = Some a ->
             (forall d, prediction (view a) = Some d ->
                        prediction (view a0) = Some d
                        \/ exists w, In (OnSettle w (Resolved d)) evs)
             /\ (is_Some (error (view a)) ->
                 is_Some (error (view a0))
                 \/ exists w err, In (OnSettle w (Rejected err)) evs)).
  { clear evs a. induction evs as [| ev evs IH]; intros a0 a Hex; simpl in Hex.
    - injection Hex as <-. split; intros; left; assumption.
    - destruct (step a0 ev) as [a1 |] eqn:Hs; [| discriminate Hex].
      destruct (IH a1 a Hex) as [IHp IHe]. split.
      + intros d Hd. destruct (IHp d Hd) as [H1 | [w Hw]];
          [| right; exists w; right; exact Hw].
        destruct ev as [name value | | w o |].
        * rewrite step_OnChange in Hs. injection Hs as <-. left. exact H1.
        * rewrite step_OnSubmit in Hs.
          destruct (loading (view a0)); [discriminate Hs |].
          injection Hs as <-. left. exact H1.
        * rewrite step_OnSettle in Hs.
          destruct (pending a0); [discriminate Hs |].
          injection Hs as <-. destruct o as [d' | err]; simpl in H1.
          -- injection H1 as ->. right. exists w. left. reflexivity.
          -- left. exact H1.
        * rewrite step_OnReset in Hs. injection Hs as <-. discriminate H1.
      + intros He. destruct (IHe He) as [H1 | (w & err & Hw)];
          [| right; exists w, err; right; exact Hw].
        destruct ev as [name value | | w o |].
        * rewrite step_OnChange in Hs. injection Hs as <-. left. exact H1.
        * rewrite step_OnSubmit in Hs.
          destruct (loading (view a0)); [discriminate Hs |].
          injection Hs as <-. destruct H1 as [x Hx]. discriminate Hx.
        * rewrite step_OnSettle in Hs.
          destruct (pending a0); [discriminate Hs |].
          injection Hs as <-. destruct o as [d' | err]; simpl in H1.
          -- left. exact H1.
          -- right. exists w, err. left. reflexivity.
        * rewrite step_OnReset in Hs. injection Hs as <-.
          destruct H1 as [x Hx]. discriminate Hx. }
  intros Hex. destruct (Hgen evs initialApp a Hex) as [Hp He]. split.
  - intros d Hd. destruct (Hp d Hd) as [H | H]; [discriminate H | exact H].
  - intros H. destruct (He H) as [[x Hx] | H']; [discriminate Hx | exact H'].
Qed.

End Runs.

Lemma inputNames_are_fields : inputNames = field_names.
Proof. reflexivity. Qed.

Section Keys.

Context {number : Type}.

(** What a list of edits does to the view state. *)
Lemma run_handleChanges (edits : list (string * string)) (s : State number) :
  run (handleChanges edits) s
  = mkState (fold_left (fun fd e => <[fst e := snd e]> fd) edits (formData s))
            (prediction s) (loading s) (error s).
Proof.
  revert s. induction edits as [| [name value] edits IH]; intros s.
  - destruct s; reflexivity.
  - rewrite handleChanges_cons, run_app, IH, run_handleChange. reflexivity.
Qed.

Lemma reachable_fields_present (a : App number) :
  reachable a ->
  Forall (fun k => is_Some (formData (view a) !! k)) field_names.
Proof.
  induction 1 as [| a ev a' Hreach IH Hstep].
  - apply Forall_forall. intros k Hk.
    pose proof initial_fields_empty as Hinit.
    rewrite Forall_forall in Hinit. simpl. rewrite (Hinit k Hk). eexists; reflexivity.
  - destruct ev as [name value | | w o |].
    + rewrite step_OnChange in Hstep. injection Hstep as <-. simpl.
      apply Forall_forall. intros k Hk. rewrite Forall_forall in IH.
      rewrite lookup_insert. destruct (decide (name = k)); [eexists; reflexivity |].
      apply IH. exact Hk.
    + rewrite step_OnSubmit in Hstep.
      destruct (loading (view a)); [discriminate Hstep |].
      injection Hstep as <-. exact IH.
    + rewrite step_OnSettle in Hstep.
      destruct (pending a); [discriminate Hstep |].
      injection Hstep as <-. destruct o; exact IH.
    + rewrite step_OnReset in Hstep. injection Hstep as <-. simpl.
      apply Forall_forall. intros k Hk.
      pose proof initial_fields_empty as Hinit.
      rewrite Forall_forall in Hinit.
      rewrite cleared_is_initial, (Hinit k Hk). eexists; reflexivity.
Qed.

Lemma exec_exact_keys (evs : list (Event number)) (a0 a : App number) :
  exec evs a0 = Some a ->
  Forall fromForm evs ->
  dom (formData (view a0)) = list_to_set field_names ->
  Forall (fun body : gmap string string => dom body = list_to_set field_names)
         (pending a0) ->
  dom (formData (view a)) = list_to_set field_names
  /\ Forall (fun body : gmap string string => dom body = list_to_set field_names)
            (pending a).
Proof.
  revert a0. induction evs as [| ev evs IH]; intros a0 Hex Hform Hdom Hpend;
    simpl in Hex.
  - injection Hex as <-. split; assumption.
  - destruct (step a0 ev) as [a1 |] eqn:Hs; [| discriminate Hex].
    apply Forall_cons in Hform as [Hev Hevs].
    apply (IH a1 Hex Hevs); clear IH Hex Hevs;
      destruct ev as [name value | | w o |].
    + rewrite step_OnChange in Hs. injection Hs as <-. simpl.
      simpl in Hev. rewrite inputNames_are_fields in Hev.
      rewrite dom_insert_L, Hdom.
      apply (elem_of_list_to_set (C := gset string)) in Hev.
      apply subseteq_union_1_L, singleton_subseteq_l. exact Hev.
    + rewrite step_OnSubmit in Hs.
      destruct (loading (view a0)); [discriminate Hs |].
      injection Hs as <-. exact Hdom.
    + rewrite step_OnSettle in Hs.
      destruct (pending a0); [discriminate Hs |].
      injection Hs as <-. destruct o; exact Hdom.
    + rewrite step_OnReset in Hs. injection Hs as <-. simpl.
      rewrite cleared_is_initial. exact field_names_dom.
    + rewrite step_OnChange in Hs. injection Hs as <-. exact Hpend.
    + rewrite step_OnSubmit in Hs.
      destruct (loading (view a0)); [discriminate Hs |].
      injection Hs as <-. simpl. apply Forall_app. split; [exact Hpend |].
      constructor; [exact Hdom | constructor].
    + rewrite step_OnSettle in Hs.
      destruct (pending a0) as [| body rest]; [discriminate Hs |].
      injection Hs as <-. simpl. apply Forall_cons in Hpend as [_ Hrest]. exact Hrest.
    + rewrite step_OnReset in Hs. injection Hs as <-. exact Hpend.
Qed.

(** X8.  The form record never loses a field: after any run of events each of
    the eight names is a key.  When every change comes from one of the
    eight inputs, the record has exactly those eight keys at all times,
    and so has the body of every request in flight. *)
Theorem form_keeps_its_eight_keys (evs : list (Event number)) (a : App number) :
  exec evs initialApp = Some a ->
  Forall (fun k => is_Some (formData (view a) !! k)) field_names
  /\ (Forall fromForm evs ->
      dom (formData (view a)) = list_to_set field_names
      /\ size (formData (view a)) = 8
      /\ Forall (fun body : gmap string string => dom body = list_to_set field_names)
                (pending a)).
Proof.
  intros Hex. split.
  - apply reachable_fields_present.
    apply (exec_reachable evs initialApp); [apply reachable_init | exact Hex].
  - intros Hform.
    destruct (exec_exact_keys evs initialApp a Hex Hform field_names_dom)
      as [Hdom Hpend]; [constructor |].
    split; [exact Hdom |]. split; [| exact Hpend].
    rewrite <- size_dom, Hdom. reflexivity.
Qed.

(** X9.  The body of a request is the form as it stood when the submission
    started: what is typed while the request is in flight changes the
    form on screen and not the request. *)
Theorem request_body_is_a_snapshot
    (edits : list (string * string)) (a : App number) :
  reachable a ->
  loading (view a) = false ->
  exists a' : App number,
    exec (OnSubmit :: typing edits) a = Some a'
    /\ pending a' = [formData (view a)]
    /\ formData (view a') = formData (run (handleChanges edits) (view a))
    /\ loading (view a') = true.
Proof.
  intros Ha Hl.
  assert (Hp : pending a = []).
  { destruct (reachable_invariant a Ha) as (_ & Hload & _).
    destruct (pending a) as [| body rest]; [reflexivity |].
    assert (Hfalse : loading (view a) = true) by (apply Hload; discriminate).
    rewrite Hl in Hfalse. discriminate Hfalse. }
  eexists. cbn [exec]. rewrite step_OnSubmit, Hl, Hp, exec_typing.
  split; [reflexivity |]. cbn [pending view app].
  rewrite !run_handleChanges. repeat split.
Qed.

(** X10.  With nothing in flight, the reset button brings the component back
    to the state of the mount, whatever was typed before it. *)
Theorem reset_restores_mount_state
    (edits : list (string * string)) (a : App number) :
  reachable a ->
  pending a = [] ->
  exec (typing edits ++ [OnReset]) a = Some initialApp.
Proof.
  intros Ha Hp.
  rewrite exec_app, exec_typing. cbn [exec]. rewrite step_OnReset.
  cbn [view pending]. rewrite run_handleChanges. cbn [loading].
  rewrite (idle_not_loading a Ha Hp), Hp. reflexivity.
Qed.

(** X11.  The reset button does not cancel a request in flight: after it the
    form is empty, but [loading] still holds, the request is still
    pending and a new submission is still refused; when the response
    arrives it is stored or reported as if nothing had been reset. *)
Theorem reset_does_not_cancel_request (a : App number) :
  reachable a ->
  loading (view a) = true ->
  exists a1 : App number,
    step a OnReset = Some a1
    /\ formData (view a1) = initialFormData
    /\ loading (view a1) = true
    /\ pending a1 = pending a
    /\ pending a1 <> []
    /\ step a1 OnSubmit = None
    /\ forall (w : Browser) (o : Outcome number),
         exists a2 : App number,
           step a1 (OnSettle w o) = Some a2
           /\ formData (view a2) = initialFormData
           /\ loading (view a2) = false
           /\ pending a2 = []
           /\ match o with
              | Resolved d =>
                  prediction (view a2) = Some d /\ error (view a2) = None
              | Rejected _ =>
                  prediction (view a2) = None
                  /\ error (view a2) = Some failureMessage
              end.
Proof.
  intros Ha Hl. destruct (loading_one_pending a Ha Hl) as [body Hp].
  eexists. rewrite step_OnReset. split; [reflexivity |].
  cbn [view pending formData loading].
  split; [reflexivity |]. split; [exact Hl |]. split; [reflexivity |].
  split; [rewrite Hp; discriminate |].
  split; [rewrite step_OnSubmit; cbn [view loading]; rewrite Hl; reflexivity |].
  intros w o. eexists. rewrite step_OnSettle. cbn [pending]. rewrite Hp.
  split; [reflexivity |]. cbn. destruct o; repeat split.
Qed.

End Keys.

(** * What is on screen *)

Section Screen.

Context {number : Type}.

(** X12.  The submit button is disabled, and reads "Processing...", exactly
    while a request is in flight; otherwise it is enabled and reads
    "Analyze Cardiac Health". *)
Theorem render_submit_button (a : App number) :
  reachable a ->
  (submitDisabled (render (view a)) = true <-> pending a <> [])
  /\ (submitLabel (render (view a)) = "Processing..." <-> pending a <> [])
  /\ (submitLabel (render (view a)) = "Analyze Cardiac Health" <-> pending a = []).
Proof.
  intros Ha. destruct (reachable_invariant a Ha) as (_ & Hload & _).
  unfold render; simpl. destruct (loading (view a)) eqn:Hl.
  - assert (Hp : pending a <> []) by (apply Hload; reflexivity).
    split; [split; auto |]. split; [split; auto |].
    split; [discriminate | intros H; contradiction].
  - assert (Hp : pending a = []).
    { destruct (pending a) as [| body rest]; [reflexivity |].
      assert (H : false = true) by (apply Hload; discriminate). discriminate H. }
    split; [split; [discriminate | intros H; contradiction] |].
    split; [split; [discriminate | intros H; contradiction] |].
    split; auto.
Qed.

(** X13.  The banner shows nothing for a null and for an empty [error].  In the
    states the component reaches it shows [error] as it is, which is
    either nothing or the fixed failure message, and nothing at all
    while a request is in flight. *)
Theorem render_error_banner :
  (forall s : State number,
     errorBanner (render s) = None <-> error s = None \/ error s = Some "")
  /\ (forall a : App number,
        reachable a ->
        errorBanner (render (view a)) = error (view a)
        /\ (errorBanner (render (view a)) = None
            \/ errorBanner (render (view a))
               = Some "An error occurred during prediction. Please try again.")
        /\ (pending a <> [] -> errorBanner (render (view a)) = None)).
Proof.
  split.
  - intros s. unfold render; simpl. destruct (error s) as [e |].
    + destruct (String.eqb_spec e "") as [-> | Hne]; split.
      * intros _. right. reflexivity.
      * intros _. reflexivity.
      * intros H. discriminate H.
      * intros [H | H]; [discriminate H | injection H as H; contradiction].
    + split; [intros _; left; reflexivity | intros _; reflexivity].
  - intros a Ha. destruct (reachable_invariant a Ha) as (_ & _ & Hnone).
    unfold render; simpl.
    destruct (reachable_error_fixed a Ha) as [He | He]; rewrite He in *.
    + split; [reflexivity |]. split; [left; reflexivity | intros _; reflexivity].
    + simpl. split; [reflexivity |]. split; [right; reflexivity |].
      intros Hp. specialize (Hnone Hp). discriminate Hnone.
Qed.

(** X14.  The result panel is there exactly when a prediction is stored, and
    the form is centred exactly when it is not.  A panel always holds a
    chart, with one label per class, be there no class at all; its
    diagnosis is the label as received, recognised or not. *)
Theorem render_results_panel (s : State number) :
  (results (render s) = None <-> prediction s = None)
  /\ (containerClass (render s) = "lg:flex lg:gap-4 justify-center"
      <-> prediction s = None)
  /\ (forall p : PredictionResult number,
        prediction s = Some p ->
        exists (rv : ResultsView number) (c : ChartData number),
          results (render s) = Some rv
          /\ diagnosisText rv = pr_prediction p
          /\ recommendationText rv = message (getRecommendationMessage (pr_prediction p))
          /\ doughnut rv = Some c
          /\ length (labels c) = length (pr_probabilities p)
          /\ containerClass (render s) = "lg:flex lg:gap-4 ").
Proof.
  unfold render; simpl. destruct (prediction s) as [p |] eqn:Hp.
  - split; [split; intros H; discriminate H |].
    split; [split; intros H; discriminate H |].
    intros p' Hp'. injection Hp' as <-.
    eexists. eexists. split; [reflexivity |]. simpl.
    split; [reflexivity |]. split; [reflexivity |].
    unfold getChartData. rewrite Hp.
    split; [reflexivity |]. simpl. rewrite length_map. split; reflexivity.
  - split; [split; reflexivity |]. split; [split; reflexivity |].
    intros p Hp'. discriminate Hp'.
Qed.

Lemma step_withMessage (m : string) (a a1 : App number) (ev : Event number) :
  step a ev = Some a1 ->
  step (appWithMessage m a) (eventWithMessage m ev) = Some (appWithMessage m a1).
Proof.
  intros Hs. destruct ev as [name value | | w o |].
  - rewrite step_OnChange in Hs. injection Hs as <-. reflexivity.
  - rewrite step_OnSubmit in Hs. simpl eventWithMessage. rewrite step_OnSubmit.
    unfold appWithMessage at 1. cbn [view loading pending formData prediction].
    destruct (loading (view a)); [discriminate Hs |].
    injection Hs as <-. reflexivity.
  - rewrite step_OnSettle in Hs.
    destruct (pending a) as [| body rest] eqn:Hp; [discriminate Hs |].
    injection Hs as <-.
    destruct o as [d | err]; simpl eventWithMessage; rewrite step_OnSettle;
      unfold appWithMessage; cbn [view pending]; rewrite Hp; reflexivity.
  - rewrite step_OnReset in Hs. injection Hs as <-. reflexivity.
Qed.

Lemma render_withMessage (m : string) (a : App number) :
  render (view (appWithMessage m a)) = render (view a).
Proof.
  destruct a as [[fd [p |] lo er] pe]; reflexivity.
Qed.

(** X15.  The [message] of a response is never shown.  Put any other
    text in the [message] of every response of a run of events: each
    event is accepted as before, and at the end the screen and the
    requests in flight are the same. *)
Theorem render_ignores_message
    (m : string) (evs : list (Event number)) (a : App number) :
  exec evs initialApp = Some a ->
  exists a' : App number,
    exec (map (eventWithMessage m) evs) initialApp = Some a'
    /\ render (view a') = render (view a)
    /\ pending a' = pending a.
Proof.
  assert (Hgen : forall (evs : list (Event number)) (a0 a : App number),
             exec evs a0 = Some a ->
             exec (map (eventWithMessage m) evs) (appWithMessage m a0)
             = Some (appWithMessage m a)).
  { clear evs a. induction evs as [| ev evs IH]; intros a0 a Hex; simpl in Hex.
    - injection Hex as <-. reflexivity.
    - destruct (step a0 ev) as [a1 |] eqn:Hs; [| discriminate Hex].
      cbn [map exec]. rewrite (step_withMessage m a0 a1 ev Hs).
      apply IH. exact Hex. }
  intros Hex. exists (appWithMessage m a).
  split; [exact (Hgen evs initialApp a Hex) |].
  split; [apply render_withMessage | reflexivity].
Qed.

(** X16.  Every input is controlled.  In the states the component reaches,
    each of the eight inputs has a defined value, the one stored under
    its name.  A change of the input called [name] makes that input show
    the new value and leaves what the other inputs show. *)
Theorem render_inputs_controlled :
  (forall a : App number,
     reachable a ->
     map in_name (inputs (render (view a))) = field_names
     /\ Forall (fun i => is_Some (in_value i)
                         /\ in_value i = formData (view a) !! in_name i)
               (inputs (render (view a))))
  /\ (forall (s : State number) (name value : string),
        Forall2 (fun i i' =>
                   in_name i' = in_name i
                   /\ in_value i' = if decide (name = in_name i)
                                    then Some value else in_value i)
                (inputs (render s))
                (inputs (render (run (handleChange name value) s)))).
Proof.
  split.
  - intros a Ha. split; [reflexivity |].
    pose proof (reachable_fields_present a Ha) as Hkeys.
    unfold field_names in Hkeys.
    unfold render, renderInputs, numberInput; simpl.
    repeat (apply Forall_cons in Hkeys as [? Hkeys]).
    repeat (constructor; [split; [assumption | reflexivity] |]).
    constructor.
  - intros s name value. rewrite run_handleChange.
    unfold render, renderInputs, numberInput; simpl.
    repeat (constructor; [split; [reflexivity | apply lookup_insert] |]).
    constructor.
Qed.

End Screen.

(** ** The further properties on the samples *)

Lemma firstResult_reachable : reachable Samples.firstResult.
Proof.
  apply (exec_reachable
           [OnSubmit; OnSettle Samples.phone (Resolved Samples.heartFailure)]
           initialApp);
    [apply reachable_init | reflexivity].
Qed.

Lemma resultAndError_reachable : reachable Samples.resultAndError.
Proof.
  apply (exec_reachable Samples.successThenFailure initialApp);
    [apply reachable_init | reflexivity].
Qed.

(** On a phone with the panel already in the document, a success scrolls. *)
Lemma handleSubmit_scrolls_iff_witness :
  ((exists d, Resolved Samples.heartFailure = Resolved d)
   /\ (innerWidth Samples.phone < 1024)%Z
   /\ hasResultsSection Samples.phone = true)
  /\ In ScrollIntoView
        (handleSubmit_resume Samples.phone (Resolved Samples.heartFailure)).
Proof.
  assert (Hcond : (exists d, Resolved Samples.heartFailure = Resolved d)
                  /\ (innerWidth Samples.phone < 1024)%Z
                  /\ hasResultsSection Samples.phone = true).
  { split; [exists Samples.heartFailure; reflexivity |].
    split; [reflexivity | reflexivity]. }
  split; [exact Hcond |].
  destruct (handleSubmit_scrolls_iff Samples.phone (Resolved Samples.heartFailure))
    as [Hiff _].
  exact (proj2 Hiff Hcond).
Defined.

(** A network error is logged. *)
Lemma handleSubmit_one_request_form_kept_witness :
  In (@ConsoleError Q NetworkError)
     (handleSubmit_begin (formData (@initialState Q))
        ++ handleSubmit_resume Samples.phone (Rejected NetworkError))%list.
Proof.
  destruct (handleSubmit_one_request_form_kept
              Samples.phone (Rejected NetworkError) (@initialState Q))
    as (_ & _ & _ & Hlog).
  exact (proj2 (Hlog NetworkError) eq_refl).
Defined.

(** A success and then a failure, from the mount state. *)
Lemma submissions_in_sequence_witness :
  loading (view (@initialApp Q)) = false
  /\ pending (@initialApp Q) = []
  /\ exec (cycles Samples.twoOutcomes) initialApp = Some Samples.resultAndError.
Proof.
  split; [reflexivity |]. split; [reflexivity |].
  rewrite (submissions_in_sequence Samples.twoOutcomes initialApp eq_refl eq_refl).
  reflexivity.
Defined.

Lemma prediction_comes_from_a_response_witness :
  exec Samples.successThenFailure initialApp = Some Samples.resultAndError
  /\ (exists w, In (OnSettle w (Resolved Samples.heartFailure))
                   Samples.successThenFailure)
  /\ (exists w err, In (OnSettle w (Rejected err)) Samples.successThenFailure).
Proof.
  split; [reflexivity |].
  destruct (prediction_comes_from_a_response
              Samples.successThenFailure Samples.resultAndError eq_refl)
    as [Hres Herr].
  split; [apply Hres; reflexivity |].
  apply Herr. eexists; reflexivity.
Defined.

Lemma typeThenSubmit_fromForm : Forall fromForm Samples.typeThenSubmit.
Proof.
  unfold Samples.typeThenSubmit. repeat constructor.
Qed.

Lemma form_keeps_its_eight_keys_witness :
  exec Samples.typeThenSubmit initialApp
    = Some (mkApp (mkState (<["age" := "54"]> initialFormData) None true None)
                  [<["age" := "54"]> initialFormData])
  /\ Forall fromForm Samples.typeThenSubmit
  /\ size (<["age" := "54"]> initialFormData) = 8.
Proof.
  split; [reflexivity |]. split; [exact typeThenSubmit_fromForm |].
  destruct (form_keeps_its_eight_keys Samples.typeThenSubmit
              (mkApp (mkState (<["age" := "54"]> initialFormData) None true None)
                     [<["age" := "54"]> initialFormData])
              eq_refl) as [_ Hexact].
  exact (proj1 (proj2 (Hexact typeThenSubmit_fromForm))).
Defined.

Lemma request_body_is_a_snapshot_witness :
  reachable (@initialApp Q)
  /\ loading (view (@initialApp Q)) = false
  /\ exists a' : App Q,
       exec (OnSubmit :: typing [("age", "54")]) initialApp = Some a'
       /\ pending a' = [initialFormData]
       /\ formData (view a') !! "age" = Some "54".
Proof.
  split; [apply reachable_init |]. split; [reflexivity |].
  destruct (request_body_is_a_snapshot [("age", "54")] (@initialApp Q)
              reachable_init eq_refl) as (a' & Hex & Hp & Hfd & _).
  exists a'. split; [exact Hex |]. split; [exact Hp |].
  rewrite Hfd. reflexivity.
Defined.

Lemma reset_restores_mount_state_witness :
  reachable Samples.firstResult
  /\ pending Samples.firstResult = []
  /\ exec (typing [("hr", "72")] ++ [OnReset]) Samples.firstResult = Some initialApp.
Proof.
  split; [exact firstResult_reachable |]. split; [reflexivity |].
  exact (reset_restores_mount_state [("hr", "72")] Samples.firstResult
           firstResult_reachable eq_refl).
Defined.

Lemma reset_does_not_cancel_request_witness :
  reachable Samples.firstInFlight
  /\ loading (view Samples.firstInFlight) = true
  /\ exists a1 : App Q,
       step Samples.firstInFlight OnReset = Some a1
       /\ loading (view a1) = true
       /\ exists a2 : App Q,
            step a1 (OnSettle Samples.phone (Resolved Samples.heartFailure)) = Some a2
            /\ formData (view a2) = initialFormData
            /\ prediction (view a2) = Some Samples.heartFailure.
Proof.
  split; [exact firstInFlight_reachable |]. split; [reflexivity |].
  destruct (reset_does_not_cancel_request Samples.firstInFlight
              firstInFlight_reachable eq_refl)
    as (a1 & Hs & _ & Hl & _ & _ & _ & Hsettle).
  exists a1. split; [exact Hs |]. split; [exact Hl |].
  destruct (Hsettle Samples.phone (Resolved Samples.heartFailure))
    as (a2 & Hs2 & Hfd & _ & _ & Hpr & _).
  exists a2. split; [exact Hs2 |]. split; [exact Hfd | exact Hpr].
Defined.

Lemma render_submit_button_witness :
  reachable Samples.firstInFlight
  /\ pending Samples.firstInFlight <> []
  /\ submitLabel (render (view Samples.firstInFlight)) = "Processing...".
Proof.
  split; [exact firstInFlight_reachable |].
  assert (Hp : pending Samples.firstInFlight <> []) by discriminate.
  split; [exact Hp |].
  destruct (render_submit_button Samples.firstInFlight firstInFlight_reachable)
    as (_ & Hlabel & _).
  exact (proj2 Hlabel Hp).
Defined.

Lemma render_error_banner_witness :
  reachable Samples.resultAndError
  /\ errorBanner (render (view Samples.resultAndError))
     = Some "An error occurred during prediction. Please try again.".
Proof.
  split; [exact resultAndError_reachable |].
  destruct (@render_error_banner Q) as [_ Hreach].
  destruct (Hreach Samples.resultAndError resultAndError_reachable) as (Heq & _).
  rewrite Heq. reflexivity.
Defined.

Lemma render_results_panel_witness :
  prediction (view Samples.firstResult) = Some Samples.heartFailure
  /\ exists (rv : ResultsView Q) (c : ChartData Q),
       results (render (view Samples.firstResult)) = Some rv
       /\ diagnosisText rv = "Heart Failure"
       /\ doughnut rv = Some c
       /\ length (labels c) = 2.
Proof.
  split; [reflexivity |].
  destruct (render_results_panel (view Samples.firstResult)) as (_ & _ & Hpanel).
  destruct (Hpanel Samples.heartFailure eq_refl)
    as (rv & c & Hrv & Htext & _ & Hc & Hlen & _).
  exists rv, c. repeat split; assumption.
Defined.

Lemma render_inputs_controlled_witness :
  reachable (@initialApp Q)
  /\ map in_name (inputs (render (view (@initialApp Q)))) = field_names.
Proof.
  split; [apply reachable_init |].
  destruct (@render_inputs_controlled Q) as [Hreach _].
  exact (proj1 (Hreach initialApp reachable_init)).
Defined.

(** The success of the samples with another message. *)
Lemma render_ignores_message_witness :
  exec [OnSubmit; OnSettle Samples.phone (Resolved Samples.heartFailure)] initialApp
    = Some Samples.firstResult
  /\ exists a' : App Q,
       exec [OnSubmit;
             OnSettle Samples.phone
                      (Resolved (withMessage "see a doctor" Samples.heartFailure))]
            initialApp = Some a'
       /\ render (view a') = render (view Samples.firstResult).
Proof.
  split; [reflexivity |].
  destruct (render_ignores_message "see a doctor"
              [OnSubmit; OnSettle Samples.phone (Resolved Samples.heartFailure)]
              Samples.firstResult eq_refl) as (a' & Hex & Hrender & _).
  exists a'. split; [exact Hex | exact Hrender].
Defined.

(** ** A reply with a malformed body *)

(** A server error, while an earlier result is on display. *)
Lemma handleSubmit_rejected_sets_error_witness :
  (Samples.serverError = NoReply
   \/ exists status body,
        Samples.serverError = HttpReply status body
        /\ (status < 200 \/ 300 <= status)%Z)
  /\ error (run (handleSubmit_begin (formData (view Samples.firstResult))
                 ++ handleSubmit_resume Samples.phone
                      (Axios.settle Samples.serverError Samples.sixClasses))
                (view Samples.firstResult))
     = Some "An error occurred during prediction. Please try again."
  /\ prediction (run (handleSubmit_begin (formData (view Samples.firstResult))
                      ++ handleSubmit_resume Samples.phone
                           (Axios.settle Samples.serverError Samples.sixClasses))
                     (view Samples.firstResult))
     = Some Samples.heartFailure.
Proof.
  assert (Hreply : Samples.serverError = NoReply
                   \/ exists status body,
                        Samples.serverError = HttpReply status body
                        /\ (status < 200 \/ 300 <= status)%Z).
  { right. exists 500%Z, (Malformed "Internal Server Error").
    split; [reflexivity | right; lia]. }
  split; [exact Hreply |].
  destruct (handleSubmit_rejected_sets_error Samples.phone (view Samples.firstResult))
    as [_ Hreplies].
  destruct (Hreplies Samples.serverError Samples.sixClasses Hreply) as (He & _ & Hp).
  split; [exact He | exact Hp].
Defined.

(** C1 as stated fails on a malformed body.  A response with status 200
    whose body is not JSON does not reject the request; whatever the
    component then reads as [response.data], the submission ends with
    [error] null, not the failure message, and with the result that was
    on display replaced. *)
Lemma malformed_body_sets_no_error :
  Axios.rejection Samples.htmlWithStatus200 = None
  /\ (forall seen : PredictionResult Q,
        error (run (handleSubmit_begin (formData (view Samples.firstResult))
                    ++ handleSubmit_resume Samples.phone
                         (Axios.settle Samples.htmlWithStatus200 seen))
                   (view Samples.firstResult))
          = None
        /\ loading (run (handleSubmit_begin (formData (view Samples.firstResult))
                         ++ handleSubmit_resume Samples.phone
                              (Axios.settle Samples.htmlWithStatus200 seen))
                        (view Samples.firstResult))
           = false
        /\ prediction (run (handleSubmit_begin (formData (view Samples.firstResult))
                            ++ handleSubmit_resume Samples.phone
                                 (Axios.settle Samples.htmlWithStatus200 seen))
                           (view Samples.firstResult))
           = Some seen).
Proof.
  split; [reflexivity |].
  intros seen. repeat split.
Qed.
